(** * cumulus_geoproc.utils: file_extension and decompress

    A shallow embedding of [src/cumulus_geoproc/utils/__init__.py].

    - Python [str] values are [string]s; the [str] methods and slices the
      module uses ([endswith], [replace], [s[-k:]], [+]) are written out.
    - A Python exception is a value of [exn]; code that may raise returns a
      [result].
    - The file system that [decompress] reads and writes is a finite map
      from absolute, normalised paths to file contents. *)

From Stdlib Require Import ZArith Ascii String List Lia Bool.
From stdpp Require Import base gmap strings list.

Local Open Scope Z_scope.

(** ** Exceptions *)

(** The exceptions that the modelled code and the library calls it makes can
    raise. [FileNotFoundError] and [BadGzipFile] are subclasses of [OSError];
    [EOFError], [IndexError], zipfile's [BadZipFile] and tarfile's
    [ReadError] are not.
    [PathTraversal] is the plain
    [Exception("Attempted Path Traversal in Tar File")] of [safe_extract].
    All of them are subclasses of [Exception]. *)
Inductive exn : Type :=
| FileNotFoundError
| BadGzipFile
| EOFError
| IndexError
| BadZipFile
| ReadError
| PathTraversal.

Definition is_OSError (e : exn) : bool :=
  match e with
  | FileNotFoundError | BadGzipFile => true
  | _ => false
  end.

Inductive result (A : Type) : Type :=
| Ok (a : A)
| Raise (e : exn).
Arguments Ok {A} a.
Arguments Raise {A} e.

(** ** Python strings *)

Module PyStr.

Fixpoint drop (n : nat) (s : string) : string :=
  match n, s with
  | O, _ => s
  | S _, EmptyString => EmptyString
  | S n', String _ s' => drop n' s'
  end.

Fixpoint take (n : nat) (s : string) : string :=
  match n, s with
  | O, _ => EmptyString
  | S _, EmptyString => EmptyString
  | S n', String c s' => String c (take n' s')
  end.

(** [s.startswith(p)] *)
Definition startswith (s p : string) : bool := String.prefix p s.

(** [s.endswith(e)] *)
Definition endswith (s e : string) : bool :=
  (String.length e <=? String.length s)%nat
  && String.eqb (drop (String.length s - String.length e) s) e.

(** [s.endswith(t)] for a tuple [t] of strings. *)
Definition endswith_any (s : string) (t : list string) : bool :=
  existsb (endswith s) t.

(** [s[-k:]]. For [k = 0] the slice is [s[0:]], the whole string; for
    [k] larger than the length the start is clipped to 0. *)
Definition last_chars (k : nat) (s : string) : string :=
  match k with
  | O => s
  | S _ => drop (String.length s - k) s
  end.

(** [s.replace("", new)]: [new] before every character and at the end. *)
Fixpoint interleave (new s : string) : string :=
  match s with
  | EmptyString => new
  | String c s' => new +:+ String c (interleave new s')
  end.

(** [s.replace(old, new)] for a non-empty [old]: a left-to-right scan that
    replaces every non-overlapping occurrence. [skip] counts the
    characters of the occurrence just replaced that are still to be
    passed over. *)
Fixpoint replace_go (old new : string) (skip : nat) (s : string) : string :=
  match s with
  | EmptyString => EmptyString
  | String c s' =>
      match skip with
      | S k => replace_go old new k s'
      | O =>
          if String.prefix old s
          then new +:+ replace_go old new (String.length old - 1) s'
          else String c (replace_go old new 0 s')
      end
  end.

(** [s.replace(old, new)] *)
Definition replace (s old new : string) : string :=
  match old with
  | EmptyString => interleave new s
  | String _ _ => replace_go old new 0 s
  end.

(** [s.rfind("/") + 1]: the index just after the last slash, 0 when there
    is none. *)
Fixpoint after_last_slash (s : string) : nat :=
  match s with
  | EmptyString => O
  | String c s' =>
      match after_last_slash s' with
      | O => if Ascii.eqb c "/" then 1%nat else O
      | S k => S (S k)
      end
  end.

End PyStr.

(** ** Python lists *)

(** [l[i]] for a Python list: indices [0 .. len-1] count from the front,
    [-len .. -1] from the back, anything else raises [IndexError]. *)
Definition py_getitem {A : Type} (l : list A) (i : Z) : result A :=
  let n := Z.of_nat (length l) in
  let j := if i <? 0 then n + i else i in
  if (0 <=? j) && (j <? n)
  then match nth_error l (Z.to_nat j) with
       | Some x => Ok x
       | None => Raise IndexError
       end
  else Raise IndexError.

(** ** file_extension *)

Definition EXTS : list string :=
  [ ".bil"; ".bin"; ".dat"; ".gz"; ".grb"; ".grb.gz"; ".grb2"; ".grib";
    ".grib.gz"; ".grib2"; ".grib2.gz"; ".nc"; ".tar"; ".tar.gz"; ".tif";
    ".tiff"; ".txt"; ".zip" ].

(** The [extension] argument: [None], one string, or a tuple of strings
    (what [str.endswith] accepts). *)
Inductive ext_arg : Type :=
| ExtNone
| ExtStr (e : string)
| ExtTuple (es : list string).

(** Python truth value of the [extension] argument. *)
Definition ext_truthy (x : ext_arg) : bool :=
  match x with
  | ExtNone => false
  | ExtStr EmptyString => false
  | ExtStr (String _ _) => true
  | ExtTuple [] => false
  | ExtTuple (_ :: _) => true
  end.

(** [_exts = extension if extension else EXTS], as the tuple that
    [file.endswith(_exts)] tests. *)
Definition active_exts (x : ext_arg) : list string :=
  if ext_truthy x
  then match x with
       | ExtStr e => [e]
       | ExtTuple es => es
       | ExtNone => EXTS
       end
  else EXTS.

(** [file_ = [file.replace(file[-len(e):], suffix) for e in EXTS
              if file[-len(e):] == e]] *)
Definition candidates (file suffix : string) : list string :=
  map (fun e => PyStr.replace file (PyStr.last_chars (String.length e) file) suffix)
      (List.filter (fun e => String.eqb (PyStr.last_chars (String.length e) file) e)
                   EXTS).

(** The two assignments to [maxsplit] before [file_[maxsplit]]. *)
Definition select_index (len : nat) (maxsplit : Z) : Z :=
  let maxsplit := if 0 <? maxsplit then maxsplit - 1 else maxsplit in
  Z.min (Z.of_nat len - 1) maxsplit.

(** [preffix + file if preffix is not None else file] *)
Definition prefixed (preffix : option string) (file : string) : string :=
  match preffix with
  | Some p => p +:+ file
  | None => file
  end.

Definition file_extension (file : string) (preffix : option string)
    (suffix : string) (extension : ext_arg) (maxsplit : Z) : result string :=
  let file := prefixed preffix file in
  let _exts := active_exts extension in
  if PyStr.endswith_any file _exts then
    let file_ := candidates file suffix in
    py_getitem file_ (select_index (length file_) maxsplit)
  else Ok (file +:+ suffix).

(** The defaults of the signature: [preffix=None], [suffix=".tif"],
    [extension=None], [maxsplit=-1]. *)
Definition default_suffix : string := ".tif".
Definition default_maxsplit : Z := -1.

(** ** os.path (posixpath) *)

Module PosixPath.

(** [s.split("/")] *)
Fixpoint split_slash (s : string) : list string :=
  match s with
  | EmptyString => [EmptyString]
  | String c s' =>
      if Ascii.eqb c "/" then EmptyString :: split_slash s'
      else match split_slash s' with
           | [] => [String c EmptyString]
           | w :: ws => String c w :: ws
           end
  end.

(** ["/".join(comps)] *)
Fixpoint join_slash (comps : list string) : string :=
  match comps with
  | [] => EmptyString
  | [c] => c
  | c :: cs => c +:+ "/" +:+ join_slash cs
  end.

(** [os.path.join(a, b)] *)
Definition join (a b : string) : string :=
  if PyStr.startswith b "/" then b
  else if String.eqb a "" || PyStr.endswith a "/" then a +:+ b
  else a +:+ "/" +:+ b.

(** [os.path.basename(p)]: [p[p.rfind("/") + 1:]] *)
Definition basename (p : string) : string :=
  PyStr.drop (PyStr.after_last_slash p) p.

Definition isabs (p : string) : bool := PyStr.startswith p "/".

(** One round of the loop of [normpath]. [new_comps] is kept reversed:
    its head is [new_comps[-1]]. *)
Definition norm_step (initial_slashes : nat) (new_comps : list string)
    (comp : string) : list string :=
  if String.eqb comp "" || String.eqb comp "." then new_comps
  else if negb (String.eqb comp "..")
          || ((initial_slashes =? 0)%nat && match new_comps with [] => true | _ => false end)
          || match new_comps with
             | last :: _ => String.eqb last ".."
             | [] => false
             end
       then comp :: new_comps
       else match new_comps with
            | _ :: rest => rest
            | [] => []
            end.

(** [os.path.normpath(path)] *)
Definition normpath (path : string) : string :=
  if String.eqb path "" then "."
  else
    let initial_slashes :=
      if PyStr.startswith path "/" then
        if PyStr.startswith path "//" && negb (PyStr.startswith path "///")
        then 2%nat else 1%nat
      else 0%nat in
    let comps := rev (fold_left (norm_step initial_slashes) (split_slash path) []) in
    let path := join_slash comps in
    let path := match initial_slashes with
                | O => path
                | 1%nat => "/" +:+ path
                | _ => "//" +:+ path
                end in
    if String.eqb path "" then "." else path.

(** [os.path.abspath(path)], with [cwd] the value of [os.getcwd()]. *)
Definition abspath (cwd path : string) : string :=
  normpath (if isabs path then path else join cwd path).

(** [os.path.commonprefix([a, b])]: the longest common leading run of
    characters (character by character, not component by component). *)
Fixpoint commonprefix (a b : string) : string :=
  match a, b with
  | String x a', String y b' =>
      if Ascii.eqb x y then String x (commonprefix a' b') else EmptyString
  | _, _ => EmptyString
  end.

(** The non-empty components of a path. *)
Definition components (p : string) : list string :=
  List.filter (fun c => negb (String.eqb c "")) (split_slash p).

Fixpoint list_prefixb (l1 l2 : list string) : bool :=
  match l1, l2 with
  | [], _ => true
  | x :: l1', y :: l2' => String.eqb x y && list_prefixb l1' l2'
  | _ :: _, [] => false
  end.

(** A normalised absolute path [p] lies inside the directory [dir] (or is
    [dir] itself) when the components of [dir] lead the components of
    [p]. *)
Definition inside (dir p : string) : bool :=
  list_prefixb (components dir) (components p).

End PosixPath.

(** ** File contents and the file system

    A small model of the file system, for running [decompress] on concrete
    worlds. It covers regular files whose content is what it seems (plain
    data, a gzip stream, a zip or tar archive of regular files and
    directories) and writes that succeed; links, write failures and data
    that merely carries the signature of a format are outside it. What is
    stated for all inputs is proved against the interface of the libraries
    further down ([Iface]), which leaves their behaviour open. *)

(** What a file holds, as the three format libraries see it. [Plain] is
    data that is no gzip stream and no zip or tar archive ([Plain []] is
    the zero-length file). [Gzip b] is a complete gzip stream that
    decompresses to [b]; [GzipTruncated] is a gzip stream cut short. [Zip]
    and [Tar] are archives. *)
Inductive blob : Type :=
| Plain (bytes : list Byte.byte)
| Gzip (payload : blob)
| GzipTruncated
| Zip (entries : list zip_member)
| Tar (members : list tar_member)
with zip_member : Type :=
| ZipInfo (filename : string) (data : blob)
with tar_member : Type :=
| TarInfo (name : string) (isfile : bool) (data : blob).

Definition zip_filename (z : zip_member) : string :=
  match z with ZipInfo n _ => n end.
Definition zip_data (z : zip_member) : blob :=
  match z with ZipInfo _ d => d end.

Definition member_name (m : tar_member) : string :=
  match m with TarInfo n _ _ => n end.
Definition member_isfile (m : tar_member) : bool :=
  match m with TarInfo _ f _ => f end.
Definition member_data (m : tar_member) : blob :=
  match m with TarInfo _ _ d => d end.

(** One line written to the process-wide logger. *)
Inductive log_entry : Type :=
| Debug_not_gzip (src : string)
| Debug_exn (ex : exn)
| Warning_exn (ex : exn).

(** The world [decompress] runs in: the regular files, keyed by absolute
    normalised path (directories are implicit: a directory exists when a
    file lies below it, and creating one changes nothing), the working
    directory of the process, and the log. *)
Record state : Type := mkState {
  files : gmap string blob;
  cwd : string;
  log : list log_entry
}.

(** ** A state and exception monad

    A computation maps a state to a result (a value or a raised exception)
    and a new state, or to [None] when the recursion budget of [decompress]
    is used up. *)

Definition M (A : Type) : Type := state → option (result A * state).

Definition ret {A : Type} (a : A) : M A := λ s, Some (Ok a, s).

Definition bind {A B : Type} (m : M A) (f : A → M B) : M B := λ s,
  match m s with
  | Some (Ok a, s') => f a s'
  | Some (Raise e, s') => Some (Raise e, s')
  | None => None
  end.

Notation "'let*' x ':=' m 'in' k" := (bind m (fun x => k))
  (at level 10, x name, m at level 100, k at level 200).
Notation "m '>>' k" := (bind m (fun _ => k))
  (at level 100, k at level 200, right associativity).

Definition raise {A : Type} (e : exn) : M A := λ s, Some (Raise e, s).

Definition out_of_fuel {A : Type} : M A := λ _, None.

(** A pure computation that may raise. *)
Definition lift {A : Type} (r : result A) : M A := λ s, Some (r, s).

(** [try: body  except <catches> as ex: handler ex] *)
Definition try_except {A : Type} (body : M A) (catches : exn → bool)
    (handler : exn → M A) : M A := λ s,
  match body s with
  | Some (Raise e, s') => if catches e then handler e s' else Some (Raise e, s')
  | r => r
  end.

Definition is_Exception (e : exn) : bool := true.

Fixpoint for_each {A : Type} (l : list A) (body : A → M unit) : M unit :=
  match l with
  | [] => ret tt
  | x :: l' => body x >> for_each l' body
  end.

Definition getcwd : M string := λ s, Some (Ok (cwd s), s).

Definition logger (e : log_entry) : M unit := λ s,
  Some (Ok tt, mkState (files s) (cwd s) (log s ++ [e])).

(** The file a path names, if any. *)
Definition stat (path : string) : M (option blob) := λ s,
  Some (Ok (files s !! PosixPath.abspath (cwd s) path), s).

(** [with open(path, "wb") as fp: fp.write(content)]; the directory is
    taken to be writable. *)
Definition write_file (path : string) (content : blob) : M unit := λ s,
  Some (Ok tt, mkState (<[PosixPath.abspath (cwd s) path := content]> (files s))
                         (cwd s) (log s)).

(** ** gzip, zipfile, tarfile *)

(** What reading a file through the gzip module gives. Data that does not
    start as a gzip stream raises [BadGzipFile], a subclass of [OSError]; a
    stream that ends early raises [EOFError], as the documentation of the
    module says; a zero-length file is read as an empty stream, without an
    error. *)
Definition gunzip (b : blob) : result blob :=
  match b with
  | Gzip payload => Ok payload
  | GzipTruncated => Raise EOFError
  | Plain [] => Ok (Plain [])
  | _ => Raise BadGzipFile
  end.

(** [with gzip.open(path, "rb") as fh: fh.read()] *)
Definition gzip_read (path : string) : M blob :=
  let* f := stat path in
  match f with
  | None => raise FileNotFoundError
  | Some b => lift (gunzip b)
  end.

(** [zipfile.is_zipfile(path)]: [False] for whatever is not a zip archive,
    a missing file included. *)
Definition is_zipfile (path : string) : M bool :=
  let* f := stat path in
  match f with
  | Some (Zip _) => ret true
  | _ => ret false
  end.

(** [zipfile.ZipFile(path)] *)
Definition ZipFile (path : string) : M (list zip_member) :=
  let* f := stat path in
  match f with
  | None => raise FileNotFoundError
  | Some (Zip entries) => ret entries
  | Some _ => raise BadZipFile
  end.

(** The name under which zipfile extracts an entry: empty, ["."] and
    [".."] components are dropped. *)
Definition zip_arcname (filename : string) : string :=
  PosixPath.join_slash
    (List.filter (fun x => negb (String.eqb x "" || String.eqb x "." || String.eqb x ".."))
                 (PosixPath.split_slash filename)).

(** [zip.extractall(path)]: an entry whose name ends in a slash is a
    directory, every other one is written below [path]. *)
Definition zip_extractall (zip : list zip_member) (path : string) : M unit :=
  for_each zip (fun z =>
    if PyStr.endswith (zip_filename z) "/" then ret tt
    else write_file (PosixPath.join path (zip_arcname (zip_filename z))) (zip_data z)).

(** The members tarfile reads from a file: those of a tar archive, plain
    or (transparently) gzip-compressed. *)
Definition as_tar (b : blob) : option (list tar_member) :=
  match b with
  | Tar members => Some members
  | Gzip (Tar members) => Some members
  | _ => None
  end.

(** [tarfile.is_tarfile(path)]: opening a missing file raises. *)
Definition is_tarfile (path : string) : M bool :=
  let* f := stat path in
  match f with
  | None => raise FileNotFoundError
  | Some b => ret (match as_tar b with Some _ => true | None => false end)
  end.

(** [tarfile.open(path)], as the list [tar.getmembers()] returns. *)
Definition tarfile_open (path : string) : M (list tar_member) :=
  let* f := stat path in
  match f with
  | None => raise FileNotFoundError
  | Some b => match as_tar b with
              | Some members => ret members
              | None => raise ReadError
              end
  end.

(** [tar.extractall(path)], without an extraction filter: each regular
    file is written at [os.path.join(path, member.name)]. *)
Definition tar_extractall (tar : list tar_member) (path : string) : M unit :=
  for_each tar (fun member =>
    if member_isfile member
    then write_file (PosixPath.join path (member_name member)) (member_data member)
    else ret tt).

(** ** decompress *)

Inductive retval : Type :=
| RetPath (p : string)
| RetFalse.

(** The allowed extensions of [decompress]. *)
Definition exts : list string := [".gz"; ".tar"; ".zip"; ".tar.gz"].

Definition is_within_directory (cwd directory target : string) : bool :=
  let abs_directory := PosixPath.abspath cwd directory in
  let abs_target := PosixPath.abspath cwd target in
  let prefix := PosixPath.commonprefix abs_directory abs_target in
  String.eqb prefix abs_directory.

(** The loop of [safe_extract] over [tar.getmembers()]. *)
Fixpoint check_members (members : list tar_member) (path : string) : M unit :=
  match members with
  | [] => ret tt
  | member :: rest =>
      let member_path := PosixPath.join path (member_name member) in
      let* wd := getcwd in
      if negb (is_within_directory wd path member_path)
      then raise PathTraversal
      else check_members rest path
  end.

Definition safe_extract (tar : list tar_member) (path : string) : M unit :=
  check_members tar path >>
  tar_extractall tar path.

Fixpoint decompress (fuel : nat) (src dst : string) (recursive : bool) : M retval :=
  match fuel with
  | O => out_of_fuel
  | S fuel' =>
      let filename := PosixPath.basename src in
      if negb (PyStr.endswith_any src exts) then ret RetFalse
      else
        let* src := try_except
                (let* content := gzip_read src in
                 let* fname := lift (file_extension filename None "" ExtNone 1) in
                 let src := PosixPath.join dst fname in
                 write_file src content >>
                 ret src)
                is_OSError
                (fun ex =>
                   logger (Debug_not_gzip src) >>
                   logger (Debug_exn ex) >>
                   ret src) in
        let* returned := try_except
                (let* z := is_zipfile src in
                 if z then
                   let* zip := ZipFile src in
                   let* fname := lift (file_extension filename None "" ExtNone default_maxsplit) in
                   let dst_ := PosixPath.join dst fname in
                   zip_extractall zip dst_ >>
                   ret (Some (RetPath dst_))
                 else
                   let* t := is_tarfile src in
                   if t then
                     let* tar := tarfile_open src in
                     let* fname := lift (file_extension filename None "" ExtNone default_maxsplit) in
                     let dst_ := PosixPath.join dst fname in
                     safe_extract tar dst_ >>
                     (if recursive then
                        for_each tar (fun member =>
                          if member_isfile member
                          then decompress fuel' (PosixPath.join dst_ (member_name member))
                                          dst_ recursive >> ret tt
                          else ret tt)
                      else ret tt) >>
                     ret (Some (RetPath dst_))
                   else ret None)
                is_Exception
                (fun ex =>
                   logger (Warning_exn ex) >>
                   ret (Some RetFalse)) in
        match returned return M retval with
        | Some v => ret v
        | None => ret (RetPath src)
        end
  end.

(** ** Example worlds *)

Definition some_bytes : blob := Plain (String.list_byte_of_string "payload").

(** [/tmp/foo.tar] holds one member, named to land in the sibling
    directory [/tmp/foobar] of its extraction directory [/tmp/foo]. *)
Definition world_sibling : state :=
  mkState {[ "/tmp/foo.tar" := Tar [TarInfo "../foobar/evil.txt" true some_bytes] ]}
          "/" [].

(** [/srv/in/run.tar] holds a regular member and one aimed at
    [/srv/out/run-old]. *)
Definition world_run : state :=
  mkState {[ "/srv/in/run.tar" :=
               Tar [TarInfo "data.bin" true some_bytes;
                    TarInfo "../run-old/data.bin" true some_bytes] ]}
          "/" [].

(** The archive of the spec's fixture: a member named ["../evil.txt"]. *)
Definition world_fixture : state :=
  mkState {[ "/tmp/foo.tar" :=
               Tar [TarInfo "ok.txt" true some_bytes;
                    TarInfo "../evil.txt" true some_bytes] ]}
          "/" [].

(** An archive whose base name is just [".tar"], to be unpacked into
    [/tmp/out]. *)
Definition world_dotfile : state :=
  mkState {[ "/data/.tar" := Tar [TarInfo "../outer/evil.txt" true some_bytes] ]}
          "/" [].

(** [/tmp/x.gz] is a gzip stream cut short. *)
Definition world_truncated : state :=
  mkState {[ "/tmp/x.gz" := GzipTruncated ]} "/" [].

(** [/tmp/notes.gz] is named like a gzip file and holds other data. *)
Definition world_misnamed : state :=
  mkState {[ "/tmp/notes.gz" := some_bytes ]} "/" [].

(** [/tmp/empty.gz] is a zero-length file. *)
Definition world_empty : state :=
  mkState {[ "/tmp/empty.gz" := Plain [] ]} "/" [].

(** ** Notions used in the properties *)

(** No proper trailing part of [old] is also a leading part of it, so two
    occurrences of [old] in a string never overlap. *)
Definition unbordered (old : string) : bool :=
  forallb (fun d => negb (String.prefix (PyStr.drop d old) old))
          (seq 1 (String.length old - 1)).

(** The position, counted from the front, that [maxsplit] selects in a list
    of [len] candidates when it is not below [-len]. *)
Definition selected_position (len : nat) (maxsplit : Z) : nat :=
  Z.to_nat (if 0 <? maxsplit then Z.min (maxsplit - 1) (Z.of_nat len - 1)
            else if maxsplit <? 0 then Z.of_nat len + maxsplit
            else 0).

(** Where [tar.extractall(path)] puts a member. *)
Definition tar_target (wd path : string) (member : tar_member) : string :=
  PosixPath.abspath wd (PosixPath.join path (member_name member)).

(** The files after writing, item after item, [val x] at [key x] for every
    item [x] that [keep] selects. *)
Definition written {A : Type} (keep : A → bool) (key : A → string)
    (val : A → blob) (items : list A) (fs : gmap string blob) : gmap string blob :=
  fold_left (fun fs x => if keep x then <[key x := val x]> fs else fs) items fs.

(** The files after [tar.extractall(path)]. *)
Definition extracted (wd path : string) (tar : list tar_member)
    (fs : gmap string blob) : gmap string blob :=
  written member_isfile (tar_target wd path) member_data tar fs.

(** [/tmp/run.tar] holds two regular members and a directory, all inside
    the extraction directory. *)
Definition world_tar : state :=
  mkState {[ "/tmp/run.tar" :=
               Tar [TarInfo "sub" false (Plain []);
                    TarInfo "sub/a.bin" true some_bytes;
                    TarInfo "b.txt" true (Plain [])] ]}
          "/" [].

(** * decompress against an interface of the libraries

    The same function once more, with every call that leaves the module
    (gzip, zipfile, tarfile, [os.getcwd], the built-in [open]) left open:
    a [library] says, for each call, what it returns or raises and what
    world it leaves. What is proved for every [library] holds whatever
    the libraries and the file system do. *)

Module Iface.

(** An exception is one the module raises itself ([IndexError] out of
    [file_extension], the [Exception] of [safe_extract]) or one a library
    call raises. All of them derive from [Exception]; [KeyboardInterrupt]
    and the other exceptions that only derive from [BaseException], which
    can arrive at any point of a run, are not modelled. *)
Inductive raised (E : Type) : Type :=
| Own (e : exn)
| Foreign (e : E).
Arguments Own {E} e.
Arguments Foreign {E} e.

Inductive outcome (E A : Type) : Type :=
| Returns (a : A)
| Raises (e : raised E).
Arguments Returns {E A} a.
Arguments Raises {E A} e.

(** What [decompress] reads off a tar member: [member.name] and
    [member.isfile()]. *)
Record member : Type := Member {
  name : string;
  isfile : bool
}.

Record library : Type := Library {
  world : Type;
  content : Type;
  zip_handle : Type;
  tar_handle : Type;
  error : Type;
  error_is_OSError : error → bool;
  (** [os.getcwd()] *)
  os_getcwd : world → outcome error string * world;
  (** [with gzip.open(path, "rb") as fh: fh.read()] *)
  gzip_read : string → world → outcome error content * world;
  (** [with open(path, "wb") as fp: fp.write(content)] *)
  open_write : string → content → world → outcome error unit * world;
  (** [zipfile.is_zipfile(path)] *)
  is_zipfile : string → world → outcome error bool * world;
  (** [zipfile.ZipFile(path)] *)
  ZipFile : string → world → outcome error zip_handle * world;
  (** [zip.extractall(path)] *)
  zip_extractall : zip_handle → string → world → outcome error unit * world;
  (** [tarfile.is_tarfile(path)] *)
  is_tarfile : string → world → outcome error bool * world;
  (** [tarfile.open(path)] *)
  tarfile_open : string → world → outcome error tar_handle * world;
  (** [tar.getmembers()] *)
  getmembers : tar_handle → world → outcome error (list member) * world;
  (** [tar.extractall(path)] *)
  tar_extractall : tar_handle → string → world → outcome error unit * world
}.

Inductive log_entry (E : Type) : Type :=
| Debug_not_gzip (src : string)
| Debug_exn (ex : raised E)
| Warning_exn (ex : raised E).
Arguments Debug_not_gzip {E} src.
Arguments Debug_exn {E} ex.
Arguments Warning_exn {E} ex.

Section WithLibrary.
Context (lib : library).

(** The world and the log. *)
Definition state : Type := world lib * list (log_entry (error lib)).

Definition M (A : Type) : Type :=
  state → option (outcome (error lib) A * state).

Definition ret {A : Type} (a : A) : M A := λ s, Some (Returns a, s).

Definition bind {A B : Type} (m : M A) (f : A → M B) : M B := λ s,
  match m s with
  | Some (Returns a, s') => f a s'
  | Some (Raises e, s') => Some (Raises e, s')
  | None => None
  end.

Definition raise {A : Type} (e : raised (error lib)) : M A :=
  λ s, Some (Raises e, s).

Definition out_of_fuel {A : Type} : M A := λ _, None.

(** A pure computation of the module that may raise. *)
Definition lift {A : Type} (r : result A) : M A := λ s,
  Some (match r with Ok a => Returns a | Raise e => Raises (Own e) end, s).

(** A call into a library. *)
Definition call {A : Type}
    (f : world lib → outcome (error lib) A * world lib) : M A := λ s,
  let (o, w) := f (fst s) in Some (o, (w, snd s)).

Definition try_except {A : Type} (body : M A)
    (catches : raised (error lib) → bool)
    (handler : raised (error lib) → M A) : M A := λ s,
  match body s with
  | Some (Raises e, s') => if catches e then handler e s' else Some (Raises e, s')
  | r => r
  end.

Definition is_OSError (e : raised (error lib)) : bool :=
  match e with
  | Own e => is_OSError e
  | Foreign e => error_is_OSError lib e
  end.

Definition is_Exception (e : raised (error lib)) : bool := true.

Definition logger (line : log_entry (error lib)) : M unit := λ s,
  Some (Returns tt, (fst s, snd s ++ [line])).

End WithLibrary.

Declare Scope iface_scope.
Delimit Scope iface_scope with iface.
Notation "'let*' x ':=' m 'in' k" := (bind _ m (fun x => k))
  (at level 10, x name, m at level 100, k at level 200) : iface_scope.
Notation "m '>>' k" := (bind _ m (fun _ => k))
  (at level 100, k at level 200, right associativity) : iface_scope.
Local Open Scope iface_scope.

Section Decompress.
Context (lib : library).

Fixpoint for_each {A : Type} (l : list A) (body : A → M lib unit) : M lib unit :=
  match l with
  | [] => ret lib tt
  | x :: l' => body x >> for_each l' body
  end.

(** [os.path.abspath(path)]: the working directory is asked for only when
    the path is relative. *)
Definition abspath (path : string) : M lib string :=
  if PosixPath.isabs path then ret lib (PosixPath.normpath path)
  else
    let* cwd := call lib (os_getcwd lib) in
    ret lib (PosixPath.normpath (PosixPath.join cwd path)).

Definition is_within_directory (directory target : string) : M lib bool :=
  let* abs_directory := abspath directory in
  let* abs_target := abspath target in
  let prefix := PosixPath.commonprefix abs_directory abs_target in
  ret lib (String.eqb prefix abs_directory).

Definition safe_extract (tar : tar_handle lib) (path : string) : M lib unit :=
  let* members := call lib (getmembers lib tar) in
  for_each members (fun member =>
    let member_path := PosixPath.join path (name member) in
    let* within := is_within_directory path member_path in
    if negb within then raise lib (Own PathTraversal) else ret lib tt) >>
  call lib (tar_extractall lib tar path).

(** The handler of the first [try]: two debug lines, and the run goes on
    with [src] as it is bound at that moment. *)
Definition not_gzip (src : string) (ex : raised (error lib)) : M lib string :=
  logger lib (Debug_not_gzip src) >>
  logger lib (Debug_exn ex) >>
  ret lib src.

(** The first [try] block. [src] is rebound to the output path before the
    output file is opened, so an [OSError] of the read is handled with the
    old [src] and an [OSError] of the write with the new one; the model
    splits the block at the rebinding. *)
Definition gzip_step (src dst filename : string) : M lib string :=
  let* read :=
    try_except lib
      (let* content := call lib (gzip_read lib src) in
       let* fname := lift lib (file_extension filename None "" ExtNone 1) in
       ret lib (Some (content, PosixPath.join dst fname)))
      (is_OSError lib)
      (fun ex => not_gzip src ex >> ret lib None) in
  match read with
  | None => ret lib src
  | Some (content, src) =>
      try_except lib
        (call lib (open_write lib src content) >> ret lib src)
        (is_OSError lib)
        (not_gzip src)
  end.

Fixpoint decompress (fuel : nat) (src dst : string) (recursive : bool)
    : M lib retval :=
  match fuel with
  | O => out_of_fuel lib
  | S fuel' =>
      let filename := PosixPath.basename src in
      if negb (PyStr.endswith_any src exts) then ret lib RetFalse
      else
        let* src := gzip_step src dst filename in
        let* returned :=
          try_except lib
            (let* z := call lib (is_zipfile lib src) in
             if z then
               let* zip := call lib (ZipFile lib src) in
               let* fname :=
                 lift lib (file_extension filename None "" ExtNone default_maxsplit) in
               let dst_ := PosixPath.join dst fname in
               call lib (zip_extractall lib zip dst_) >>
               ret lib (Some (RetPath dst_))
             else
               let* t := call lib (is_tarfile lib src) in
               if t then
                 let* tar := call lib (tarfile_open lib src) in
                 let* fname :=
                   lift lib (file_extension filename None "" ExtNone default_maxsplit) in
                 let dst_ := PosixPath.join dst fname in
                 safe_extract tar dst_ >>
                 (if recursive then
                    let* members := call lib (getmembers lib tar) in
                    for_each members (fun member =>
                      if isfile member
                      then decompress fuel' (PosixPath.join dst_ (name member))
                                      dst_ recursive >> ret lib tt
                      else ret lib tt)
                  else ret lib tt) >>
                 ret lib (Some (RetPath dst_))
               else ret lib None)
            (is_Exception lib)
            (fun ex => logger lib (Warning_exn ex) >> ret lib (Some RetFalse)) in
        match returned return M lib retval with
        | Some v => ret lib v
        | None => ret lib (RetPath src)
        end
  end.

End Decompress.

End Iface.

(** ** The file-system model as a library

    The model of the first part, seen through the interface: its state is
    the world, and no call raises anything but the exceptions of [exn]. *)

Definition run_flat {A : Type} (m : M A) (default : A) (s : state)
    : Iface.outcome Empty_set A * state :=
  match m s with
  | Some (Ok a, s') => (Iface.Returns a, s')
  | Some (Raise e, s') => (Iface.Raises (Iface.Own e), s')
  | None => (Iface.Returns default, s)
  end.

Definition flat_member (m : tar_member) : Iface.member :=
  Iface.Member (member_name m) (member_isfile m).

Definition flat_library : Iface.library :=
  Iface.Library state blob (list zip_member) (list tar_member) Empty_set
    (fun _ => false)
    (run_flat getcwd "")
    (fun path => run_flat (gzip_read path) (Plain []))
    (fun path content => run_flat (write_file path content) tt)
    (fun path => run_flat (is_zipfile path) false)
    (fun path => run_flat (ZipFile path) [])
    (fun zip path => run_flat (zip_extractall zip path) tt)
    (fun path => run_flat (is_tarfile path) false)
    (fun path => run_flat (tarfile_open path) [])
    (fun tar w => (Iface.Returns (map flat_member tar), w))
    (fun tar path => run_flat (tar_extractall tar path) tt).

(** A library whose [open] refuses to write, on the world of the model:
    [/tmp/obs.grib2.gz] is a gzip file and [/tmp] cannot be written to. *)
Definition readonly_library : Iface.library :=
  Iface.Library state blob (list zip_member) (list tar_member) Empty_set
    (fun _ => false)
    (run_flat getcwd "")
    (fun path => run_flat (gzip_read path) (Plain []))
    (fun path content w => (Iface.Raises (Iface.Own FileNotFoundError), w))
    (fun path => run_flat (is_zipfile path) false)
    (fun path => run_flat (ZipFile path) [])
    (fun zip path => run_flat (zip_extractall zip path) tt)
    (fun path => run_flat (is_tarfile path) false)
    (fun path => run_flat (tarfile_open path) [])
    (fun tar w => (Iface.Returns (map flat_member tar), w))
    (fun tar path => run_flat (tar_extractall tar path) tt).

Definition world_gz : state :=
  mkState {[ "/tmp/obs.grib2.gz" := Gzip some_bytes ]} "/" [].

(** * Properties *)

(** ** Strings *)

Section StringFacts.

Lemma append_cons (c : ascii) (s t : string) :
  String c s +:+ t = String c (s +:+ t).
Proof. reflexivity. Qed.

Lemma append_nil_r (s : string) : s +:+ "" = s.
Proof. induction s as [|c s IH]; [reflexivity|]. rewrite append_cons. by f_equal. Qed.

Lemma length_append (s t : string) :
  String.length (s +:+ t) = (String.length s + String.length t)%nat.
Proof.
  induction s as [|c s IH]; [reflexivity|].
  rewrite append_cons. simpl. by rewrite IH.
Qed.

Lemma drop_append (p e : string) : PyStr.drop (String.length p) (p +:+ e) = e.
Proof. induction p as [|c p IH]; [by destruct e|]. rewrite append_cons. exact IH. Qed.

Lemma take_drop (n : nat) (s : string) : PyStr.take n s +:+ PyStr.drop n s = s.
Proof.
  revert s. induction n as [|n IH]; intros s; [reflexivity|].
  destruct s as [|c s]; [reflexivity|].
  simpl. rewrite append_cons. by f_equal.
Qed.

(** [endswith] is Python's: [e] is a trailing part of [s]. *)
Lemma endswith_spec (s e : string) :
  PyStr.endswith s e = true ↔ ∃ p, s = p +:+ e.
Proof.
  unfold PyStr.endswith. rewrite andb_true_iff, Nat.leb_le, String.eqb_eq. split.
  - intros [Hlen Heq].
    exists (PyStr.take (String.length s - String.length e) s).
    rewrite <- (take_drop (String.length s - String.length e) s) at 1.
    by rewrite Heq.
  - intros [p ->]. rewrite length_append. split; [lia|].
    replace (String.length p + String.length e - String.length e)%nat
      with (String.length p) by lia.
    apply drop_append.
Qed.

Lemma endswith_any_spec (s : string) (t : list string) :
  PyStr.endswith_any s t = true ↔ ∃ e, In e t ∧ ∃ p, s = p +:+ e.
Proof.
  unfold PyStr.endswith_any. rewrite existsb_exists.
  split; intros (e & Hin & H); exists e; split; try done; by apply endswith_spec.
Qed.

Lemma endswith_any_false (s : string) (t : list string) :
  PyStr.endswith_any s t = false ↔ ∀ e p, In e t → s ≠ p +:+ e.
Proof.
  rewrite <- not_true_iff_false, endswith_any_spec. split.
  - intros Hno e p Hin ->. apply Hno. eauto.
  - intros Hno (e & Hin & p & ->). by eapply Hno.
Qed.

(** For a non-empty [e], the test [file[-len(e):] == e] of the list
    comprehension is [file.endswith(e)]. *)
Lemma last_chars_eqb (s e : string) :
  e ≠ "" →
  String.eqb (PyStr.last_chars (String.length e) s) e = PyStr.endswith s e.
Proof.
  intros He. unfold PyStr.endswith, PyStr.last_chars.
  destruct e as [|c e]; [done|]. cbn [String.length].
  destruct (Nat.leb_spec (S (String.length e)) (String.length s)) as [Hle|Hgt];
    [reflexivity|].
  cbn [andb]. apply String.eqb_neq. intros Heq.
  assert (String.length (PyStr.drop (String.length s - S (String.length e)) s)
          = S (String.length e)) as Hlen by (by rewrite Heq).
  replace (String.length s - S (String.length e))%nat with 0%nat in Hlen by lia.
  simpl in Hlen. lia.
Qed.

End StringFacts.

(** ** Lists *)

Section ListFacts.
Context {A : Type}.

Lemma py_getitem_in_range (l : list A) (i : Z) :
  - Z.of_nat (length l) ≤ i < Z.of_nat (length l) →
  ∃ x, py_getitem l i = Ok x ∧ In x l.
Proof.
  intros Hi. unfold py_getitem.
  set (j := if i <? 0 then Z.of_nat (length l) + i else i).
  assert (0 ≤ j < Z.of_nat (length l)) as Hj
    by (subst j; destruct (Z.ltb_spec i 0); lia).
  destruct (Z.leb_spec 0 j); [|lia]. destruct (Z.ltb_spec j (Z.of_nat (length l))); [|lia].
  cbn [andb].
  destruct (nth_error l (Z.to_nat j)) as [x|] eqn:Hnth.
  - exists x. split; [done|]. by eapply nth_error_In.
  - apply nth_error_None in Hnth. lia.
Qed.

Lemma py_getitem_out_of_range (l : list A) (i : Z) :
  i < - Z.of_nat (length l) ∨ Z.of_nat (length l) ≤ i →
  py_getitem l i = Raise IndexError.
Proof.
  intros Hi. unfold py_getitem.
  destruct (Z.ltb_spec i 0).
  - destruct (Z.leb_spec 0 (Z.of_nat (length l) + i)); [lia|done].
  - destruct (Z.leb_spec 0 i); [|lia].
    destruct (Z.ltb_spec i (Z.of_nat (length l))); [lia|done].
Qed.

End ListFacts.

(** ** file_extension *)

Section FileExtension.

Lemma EXTS_nonempty (e : string) : In e EXTS → e ≠ "".
Proof. intros Hin ->. vm_compute in Hin. intuition discriminate. Qed.

(** The list comprehension, with its test read as [file.endswith(e)] and
    the replaced text as [e] itself. *)
Lemma candidates_eq (file suffix : string) :
  candidates file suffix
  = map (fun e => PyStr.replace file e suffix)
        (List.filter (PyStr.endswith file) EXTS).
Proof.
  unfold candidates.
  rewrite (filter_ext_in _ (PyStr.endswith file))
    by (intros e He; apply last_chars_eqb, EXTS_nonempty, He).
  apply map_ext_in. intros e [He Hends]%filter_In.
  rewrite <- (last_chars_eqb file e) in Hends by by apply EXTS_nonempty.
  apply String.eqb_eq in Hends. by rewrite Hends.
Qed.

Lemma candidates_nonempty (file suffix : string) :
  PyStr.endswith_any file EXTS = true → candidates file suffix ≠ [].
Proof.
  intros (e & Hin & Hends)%existsb_exists. rewrite candidates_eq.
  intros Hnil%map_eq_nil.
  assert (In e (List.filter (PyStr.endswith file) EXTS)) as Hf
    by (apply filter_In; done).
  rewrite Hnil in Hf. destruct Hf.
Qed.

Lemma candidates_shape (file suffix r : string) :
  In r (candidates file suffix) →
  ∃ e pre, In e EXTS ∧ file = pre +:+ e ∧ r = PyStr.replace file e suffix.
Proof.
  rewrite candidates_eq. intros (e & <- & [He Hends]%filter_In)%in_map_iff.
  apply endswith_spec in Hends as [pre ->]. eauto.
Qed.

(** The index stays below the length; it is not raised when it is below
    [-len]. *)
Lemma select_index_upper (len : nat) (maxsplit : Z) :
  select_index len maxsplit ≤ Z.of_nat len - 1.
Proof. unfold select_index. lia. Qed.

Lemma select_index_positive (len : nat) (maxsplit : Z) :
  (0 < len)%nat → 0 < maxsplit →
  select_index len maxsplit = Z.min (Z.of_nat len - 1) (maxsplit - 1)
  ∧ 0 ≤ select_index len maxsplit ≤ Z.of_nat len - 1.
Proof.
  intros Hlen Hm. unfold select_index.
  destruct (Z.ltb_spec 0 maxsplit); lia.
Qed.

Lemma select_index_nonpositive (len : nat) (maxsplit : Z) :
  (0 < len)%nat → maxsplit ≤ 0 →
  select_index len maxsplit = maxsplit.
Proof.
  intros Hlen Hm. unfold select_index.
  destruct (Z.ltb_spec 0 maxsplit); lia.
Qed.

(** With the default extension set, [file_extension] returns a string unless
    [maxsplit] lies below minus the number of candidates. *)
Lemma file_extension_default_returns (file : string) (preffix : option string)
    (suffix : string) (maxsplit : Z) :
  - Z.of_nat (length (candidates (prefixed preffix file) suffix)) ≤ maxsplit →
  ∃ r, file_extension file preffix suffix ExtNone maxsplit = Ok r.
Proof.
  intros Hm. unfold file_extension. cbn [active_exts ext_truthy].
  destruct (PyStr.endswith_any _ EXTS) eqn:Hends; [|eauto].
  pose proof (candidates_nonempty _ suffix Hends) as Hne.
  set (file_ := candidates _ suffix) in *.
  assert (0 < length file_)%nat as Hlen by (destruct file_; [done|simpl; lia]).
  destruct (py_getitem_in_range file_ (select_index (length file_) maxsplit))
    as (r & Hr & _); [|eauto].
  destruct (Z.lt_ge_cases 0 maxsplit) as [Hpos|Hnp].
  - pose proof (select_index_positive _ _ Hlen Hpos). lia.
  - rewrite select_index_nonpositive by lia. lia.
Qed.

(** With the defaults, a name that ends in a recognised extension comes
    back with every occurrence of one such extension replaced by the
    suffix. *)
Lemma file_extension_default_shape (file suffix : string) :
  PyStr.endswith_any file EXTS = true →
  ∃ e pre, In e EXTS ∧ file = pre +:+ e
           ∧ file_extension file None suffix ExtNone default_maxsplit
             = Ok (PyStr.replace file e suffix).
Proof.
  intros Hends. unfold file_extension. cbn [prefixed active_exts ext_truthy].
  rewrite Hends.
  pose proof (candidates_nonempty file suffix Hends) as Hne.
  set (file_ := candidates file suffix) in *.
  assert (0 < length file_)%nat as Hlen by (destruct file_; [done|simpl; lia]).
  destruct (py_getitem_in_range file_ (select_index (length file_) default_maxsplit))
    as (r & Hr & Hin).
  { rewrite select_index_nonpositive by (unfold default_maxsplit; lia).
    unfold default_maxsplit. lia. }
  apply candidates_shape in Hin as (e & pre & He & Hfile & ->). eauto 6.
Qed.

End FileExtension.

Section Replace.

Lemma replace_go_skip_all (old new s : string) (k : nat) :
  (String.length s ≤ k)%nat → PyStr.replace_go old new k s = "".
Proof.
  revert k. induction s as [|c s IH]; intros k Hk; [reflexivity|].
  destruct k as [|k]; simpl in *; [lia|]. apply IH. lia.
Qed.

Lemma prefix_refl (s : string) : String.prefix s s = true.
Proof.
  induction s as [|c s IH]; [reflexivity|].
  simpl. by destruct (ascii_dec c c).
Qed.

Lemma replace_go_single_occurrence (pre new : string) (c0 : ascii) (old0 : string) :
  (∀ k, (k < String.length pre)%nat →
        String.prefix (String c0 old0) (PyStr.drop k (pre +:+ String c0 old0)) = false) →
  PyStr.replace_go (String c0 old0) new 0 (pre +:+ String c0 old0) = pre +:+ new.
Proof.
  intros Hocc. induction pre as [|c pre IH].
  - change ("" +:+ String c0 old0) with (String c0 old0).
    change ("" +:+ new) with new.
    cbn [PyStr.replace_go]. rewrite prefix_refl.
    rewrite replace_go_skip_all, append_nil_r; [done|]. simpl. lia.
  - pose proof (Hocc 0%nat ltac:(simpl; lia)) as H0.
    cbn [PyStr.drop] in H0. rewrite append_cons in H0.
    rewrite !append_cons. cbn [PyStr.replace_go]. rewrite H0.
    f_equal. apply IH. intros k Hk.
    apply (Hocc (S k)). simpl. lia.
Qed.

(** When [old] occurs in [pre + old] at the end only, [replace] rewrites
    just that trailing occurrence. *)
Lemma replace_single_occurrence (pre old new : string) :
  old ≠ "" →
  (∀ k, (k < String.length pre)%nat →
        String.prefix old (PyStr.drop k (pre +:+ old)) = false) →
  PyStr.replace (pre +:+ old) old new = pre +:+ new.
Proof.
  intros Hold Hocc. destruct old as [|c0 old0]; [done|].
  by apply replace_go_single_occurrence.
Qed.

(** X4. With the defaults, when no recognised extension occurs in the name
    anywhere but at its end, the part before the extension is kept and the
    suffix follows it. *)
Lemma file_extension_single_occurrence (file suffix : string) :
  PyStr.endswith_any file EXTS = true →
  (∀ e k, In e EXTS → (k + String.length e < String.length file)%nat →
          String.prefix e (PyStr.drop k file) = false) →
  ∃ e pre, In e EXTS ∧ file = pre +:+ e
           ∧ file_extension file None suffix ExtNone default_maxsplit
             = Ok (pre +:+ suffix).
Proof.
  intros Hends Hocc.
  destruct (file_extension_default_shape file suffix Hends)
    as (e & pre & He & Hfile & Hres).
  exists e, pre. split; [done|]. split; [done|].
  rewrite Hres, Hfile. f_equal.
  apply replace_single_occurrence; [by apply EXTS_nonempty|].
  intros k Hk. rewrite <- Hfile. apply Hocc; [done|].
  rewrite Hfile, length_append. lia.
Qed.

Lemma file_extension_single_occurrence_witness :
  ∃ e pre, In e EXTS ∧ "a.nc" = pre +:+ e
           ∧ file_extension "a.nc" None ".tif" ExtNone default_maxsplit
             = Ok (pre +:+ ".tif").
Proof.
  apply (file_extension_single_occurrence "a.nc" ".tif"); [reflexivity|].
  intros e k He Hk. vm_compute in He.
  repeat (destruct He as [<-|He];
          [simpl in Hk; first [lia | destruct k; [reflexivity | lia]]|]).
  destruct He.
Defined.

End Replace.

Section FileExtensionClaims.

(** C6. With [EXTS] in the order of the source,
    [file_extension("data.tar.gz", suffix="", maxsplit=1)] is
    ["data.tar"]: one trailing extension level is stripped. *)
Theorem file_extension_tar_gz_one_level :
  file_extension "data.tar.gz" None "" ExtNone 1 = Ok "data.tar".
Proof. reflexivity. Qed.

(** C9. A (prefixed) file name that ends with no extension of the active
    set comes back with the suffix appended: the result is
    [preffix + file + suffix], whatever [maxsplit] is. *)
Theorem file_extension_unrecognised (file : string) (preffix : option string)
    (suffix : string) (extension : ext_arg) (maxsplit : Z) :
  (∀ e p, In e (active_exts extension) → prefixed preffix file ≠ p +:+ e) →
  file_extension file preffix suffix extension maxsplit
  = Ok (prefixed preffix file +:+ suffix).
Proof.
  intros Hno%endswith_any_false. unfold file_extension. by rewrite Hno.
Qed.

Lemma file_extension_unrecognised_witness :
  (∀ e p, In e (active_exts ExtNone) → prefixed (Some "out_") "notes.md" ≠ p +:+ e)
  ∧ file_extension "notes.md" (Some "out_") ".tif" ExtNone (-1)
    = Ok "out_notes.md.tif".
Proof.
  assert (∀ e p, In e (active_exts ExtNone)
                 → prefixed (Some "out_") "notes.md" ≠ p +:+ e) as H
    by (apply endswith_any_false; reflexivity).
  split; [exact H|].
  exact (file_extension_unrecognised "notes.md" (Some "out_") ".tif" ExtNone (-1) H).
Defined.

(** C3. [file_extension] can raise: with [extension=".xyz"] the name
    ["foo.xyz"] passes the [endswith] test, the comprehension over [EXTS]
    yields no candidate, and [file_[-1]] raises [IndexError]. *)
Theorem file_extension_override_raises :
  PyStr.endswith_any "foo.xyz" (active_exts (ExtStr ".xyz")) = true
  ∧ candidates "foo.xyz" default_suffix = []
  ∧ file_extension "foo.xyz" None default_suffix (ExtStr ".xyz") default_maxsplit
    = Raise IndexError.
Proof. repeat split; reflexivity. Qed.

(** C7. For [maxsplit] below minus the number of candidates the index is
    not brought back into range: ["a.tif"] has the single candidate
    ["a.x"], [maxsplit=-2] is used as the index as it is, and the lookup
    raises [IndexError]. *)
Theorem select_index_below_range :
  candidates "a.tif" ".x" = ["a.x"]
  ∧ select_index (length (candidates "a.tif" ".x")) (-2) = -2
  ∧ file_extension "a.tif" None ".x" ExtNone (-2) = Raise IndexError.
Proof. repeat split; reflexivity. Qed.

(** C5. [str.replace] rewrites every occurrence of the matched extension,
    not the trailing one alone: for ["a.tif.tif"] the part before the
    trailing [".tif"] is ["a.tif"], and the result is ["a.x.x"]. *)
Theorem file_extension_rewrites_inner_occurrence :
  "a.tif.tif" = "a.tif" +:+ ".tif"
  ∧ In ".tif" EXTS
  ∧ file_extension "a.tif.tif" None ".x" ExtNone default_maxsplit = Ok "a.x.x"
  ∧ "a.x.x" ≠ "a.tif" +:+ ".x".
Proof.
  split; [reflexivity|]. split; [vm_compute; tauto|].
  split; [reflexivity|]. discriminate.
Qed.

End FileExtensionClaims.

(** ** The monad and the library calls *)

Section Runs.
Context {A B : Type}.

Lemma bind_Ok (m : M A) (f : A → M B) (s s' : state) (a : A)
    (r : option (result B * state)) :
  m s = Some (Ok a, s') → f a s' = r → bind m f s = r.
Proof. intros Hm <-. unfold bind. by rewrite Hm. Qed.

Lemma bind_Raise (m : M A) (f : A → M B) (s s' : state) (e : exn) :
  m s = Some (Raise e, s') → bind m f s = Some (Raise e, s').
Proof. intros Hm. unfold bind. by rewrite Hm. Qed.

Lemma try_except_Ok (body : M A) (catches : exn → bool) (handler : exn → M A)
    (s s' : state) (a : A) :
  body s = Some (Ok a, s') →
  try_except body catches handler s = Some (Ok a, s').
Proof. intros Hb. unfold try_except. by rewrite Hb. Qed.

Lemma try_except_caught (body : M A) (catches : exn → bool)
    (handler : exn → M A) (s s' : state) (e : exn)
    (r : option (result A * state)) :
  body s = Some (Raise e, s') → catches e = true → handler e s' = r →
  try_except body catches handler s = r.
Proof. intros Hb Hc <-. unfold try_except. by rewrite Hb, Hc. Qed.

Lemma try_except_uncaught (body : M A) (catches : exn → bool)
    (handler : exn → M A) (s s' : state) (e : exn) :
  body s = Some (Raise e, s') → catches e = false →
  try_except body catches handler s = Some (Raise e, s').
Proof. intros Hb Hc. unfold try_except. by rewrite Hb, Hc. Qed.

Lemma bind_Raise_inv (m : M A) (f : A → M B) (s s' : state) (e : exn) :
  bind m f s = Some (Raise e, s') →
  m s = Some (Raise e, s')
  ∨ ∃ a s1, m s = Some (Ok a, s1) ∧ f a s1 = Some (Raise e, s').
Proof.
  unfold bind. destruct (m s) as [[[a|e1] s1]|]; [eauto| |done].
  intros [= -> ->]. by left.
Qed.

Lemma try_except_Raise_inv (body : M A) (catches : exn → bool)
    (handler : exn → M A) (s s' : state) (e : exn) :
  try_except body catches handler s = Some (Raise e, s') →
  (body s = Some (Raise e, s') ∧ catches e = false)
  ∨ ∃ e0 s0, body s = Some (Raise e0, s0) ∧ catches e0 = true
             ∧ handler e0 s0 = Some (Raise e, s').
Proof.
  unfold try_except. destruct (body s) as [[[a|e1] s1]|]; [done| |done].
  destruct (catches e1) eqn:Hc; [eauto 6|].
  intros [= -> ->]. by left.
Qed.

End Runs.

Section LibraryRuns.

Lemma gzip_read_run (path : string) (s : state) :
  gzip_read path s
  = match files s !! PosixPath.abspath (cwd s) path with
    | None => Some (Raise FileNotFoundError, s)
    | Some b => Some (gunzip b, s)
    end.
Proof.
  unfold gzip_read, bind, stat.
  by destruct (files s !! PosixPath.abspath (cwd s) path).
Qed.

Lemma is_zipfile_run (path : string) (s : state) :
  is_zipfile path s
  = Some (Ok match files s !! PosixPath.abspath (cwd s) path with
             | Some (Zip _) => true
             | _ => false
             end, s).
Proof.
  unfold is_zipfile, bind, stat.
  by destruct (files s !! PosixPath.abspath (cwd s) path) as [[]|].
Qed.

Lemma is_tarfile_run (path : string) (s : state) :
  is_tarfile path s
  = match files s !! PosixPath.abspath (cwd s) path with
    | None => Some (Raise FileNotFoundError, s)
    | Some b => Some (Ok match as_tar b with Some _ => true | None => false end, s)
    end.
Proof.
  unfold is_tarfile, bind, stat.
  by destruct (files s !! PosixPath.abspath (cwd s) path).
Qed.

Lemma tarfile_open_run (path : string) (s : state) :
  tarfile_open path s
  = match files s !! PosixPath.abspath (cwd s) path with
    | None => Some (Raise FileNotFoundError, s)
    | Some b => match as_tar b with
                | Some members => Some (Ok members, s)
                | None => Some (Raise ReadError, s)
                end
    end.
Proof.
  unfold tarfile_open, bind, stat.
  destruct (files s !! PosixPath.abspath (cwd s) path) as [b|]; [|done].
  by destruct (as_tar b).
Qed.

End LibraryRuns.

(** ** decompress *)

Section Decompress.

(** C8. A source whose name ends with none of [".gz"], [".tar"], [".zip"],
    [".tar.gz"] makes [decompress] return [False] at once: no exception,
    and the world (files, hence directories, and log) is as before. *)
Theorem decompress_other_name (fuel : nat) (src dst : string) (recursive : bool)
    (st : state) :
  (∀ e p, In e exts → src ≠ p +:+ e) →
  decompress (S fuel) src dst recursive st = Some (Ok RetFalse, st).
Proof.
  intros Hno%endswith_any_false. cbn [decompress]. by rewrite Hno.
Qed.

Lemma decompress_other_name_witness :
  (∀ e p, In e exts → "/tmp/notes.txt" ≠ p +:+ e)
  ∧ decompress 1 "/tmp/notes.txt" "/tmp" true world_misnamed
    = Some (Ok RetFalse, world_misnamed).
Proof.
  assert (∀ e p, In e exts → "/tmp/notes.txt" ≠ p +:+ e) as H
    by (apply endswith_any_false; reflexivity).
  split; [exact H|].
  exact (decompress_other_name 0 "/tmp/notes.txt" "/tmp" true world_misnamed H).
Defined.

(** C10, as stated, fails for a zero-length source: the gzip module reads
    it as an empty stream, so [decompress] writes the new (empty) file
    [/tmp/empty] and returns that path, not the source path. *)
Lemma decompress_zero_length_source :
  ∃ st',
    decompress 1 "/tmp/empty.gz" "/tmp" false world_empty
    = Some (Ok (RetPath "/tmp/empty"), st')
    ∧ RetPath "/tmp/empty" ≠ RetPath "/tmp/empty.gz"
    ∧ files world_empty !! "/tmp/empty" = None
    ∧ files st' !! "/tmp/empty" = Some (Plain []).
Proof.
  eexists. split; [vm_compute; reflexivity|].
  split; [discriminate|]. split; vm_compute; reflexivity.
Qed.

End Decompress.

(** ** The containment check *)

Section Containment.

Lemma commonprefix_is_prefix (a b : string) :
  PosixPath.commonprefix a b = a ↔ String.prefix a b = true.
Proof.
  revert b. induction a as [|x a IH]; intros b; [by destruct b|].
  destruct b as [|y b]; [done|]. simpl.
  destruct (ascii_dec x y) as [->|Hne].
  - rewrite Ascii.eqb_refl, <- IH. split; [by intros [=]|by intros ->].
  - apply Ascii.eqb_neq in Hne. by rewrite Hne.
Qed.

(** X13. What [is_within_directory] decides: it holds exactly when the
    absolute directory is a leading run of characters of the absolute
    target. *)
Lemma is_within_directory_spec (wd directory target : string) :
  is_within_directory wd directory target = true
  ↔ PyStr.startswith (PosixPath.abspath wd target)
                     (PosixPath.abspath wd directory) = true.
Proof.
  unfold is_within_directory, PyStr.startswith.
  by rewrite String.eqb_eq, commonprefix_is_prefix.
Qed.

(** The loop of [safe_extract] changes nothing; it raises as soon as a
    member fails the check. *)
Lemma check_members_run (members : list tar_member) (path : string) (s : state) :
  check_members members path s
  = Some (if forallb (fun m => is_within_directory (cwd s) path
                                 (PosixPath.join path (member_name m))) members
          then Ok tt else Raise PathTraversal, s).
Proof.
  induction members as [|m members IH]; [reflexivity|].
  cbn [check_members forallb]. unfold bind at 1, getcwd at 1.
  destruct (is_within_directory _ _ _); [exact IH | reflexivity].
Qed.

(** No partial extraction: when a member fails the check, [safe_extract]
    raises and leaves the world as it was. *)
Lemma safe_extract_rejects (tar : list tar_member) (path : string) (s : state) :
  (∃ m, In m tar ∧ is_within_directory (cwd s) path
                      (PosixPath.join path (member_name m)) = false) →
  safe_extract tar path s = Some (Raise PathTraversal, s).
Proof.
  intros (m & Hin & Hm). unfold safe_extract.
  apply bind_Raise. rewrite check_members_run.
  destruct (forallb _ tar) eqn:Hall; [|done].
  rewrite forallb_forall in Hall. specialize (Hall m Hin). congruence.
Qed.

End Containment.

Section Escapes.

(** An exception that leaves [decompress] is not an [OSError]: it comes out
    of the gzip step, the only place without a catch-all handler. *)
Lemma decompress_raise_not_OSError (fuel : nat) (src dst : string)
    (recursive : bool) (st st' : state) (e : exn) :
  decompress fuel src dst recursive st = Some (Raise e, st') →
  is_OSError e = false.
Proof.
  destruct fuel as [|fuel]; [done|]. cbn [decompress].
  destruct (negb _); [done|].
  intros [H | (src1 & s1 & _ & H)]%bind_Raise_inv.
  - apply try_except_Raise_inv in H as [[_ Hc] | (e0 & s0 & _ & _ & Hh)]; [done|].
    unfold bind, logger, ret in Hh. done.
  - apply bind_Raise_inv in H as [H | (r & s2 & _ & H)].
    + apply try_except_Raise_inv in H as [[_ Hc] | (e0 & s0 & _ & _ & Hh)]; [done|].
      unfold bind, logger, ret in Hh. done.
    + by destruct r.
Qed.

End Escapes.

Section DecompressClaims.

(** The spec's fixture: an archive with a member ["../evil.txt"] is
    refused as a whole, and only the log changes. *)
Example decompress_fixture_refused :
  decompress 1 "/tmp/foo.tar" "/tmp" false world_fixture
  = Some (Ok RetFalse,
          mkState (files world_fixture) "/"
                  [Debug_not_gzip "/tmp/foo.tar"; Debug_exn BadGzipFile;
                   Warning_exn PathTraversal]).
Proof. vm_compute. reflexivity. Qed.

(** C1. An archive with a member named ["../foobar/evil.txt"], unpacked
    into [/tmp/foo], passes the check: [decompress] returns the extraction
    directory instead of [False], and the member is written to
    [/tmp/foobar/evil.txt], outside [/tmp/foo]. *)
Theorem decompress_extracts_escaping_member :
  ∃ st',
    decompress 1 "/tmp/foo.tar" "/tmp" false world_sibling
    = Some (Ok (RetPath "/tmp/foo"), st')
    ∧ files world_sibling !! "/tmp/foobar/evil.txt" = None
    ∧ files st' !! "/tmp/foobar/evil.txt" = Some some_bytes
    ∧ PosixPath.inside "/tmp/foo" "/tmp/foobar/evil.txt" = false.
Proof.
  eexists. split; [vm_compute; reflexivity|].
  repeat split; vm_compute; reflexivity.
Qed.

(** C2. A member path can pass [is_within_directory] and still resolve
    outside the directory: ["/srv/out/run-old/data.bin"] begins with the
    characters of ["/srv/out/run"]. [decompress] then writes there, outside
    the extraction directory; and for a source whose base name is [".tar"],
    where the extraction directory is the destination itself, it writes
    outside the destination [/tmp/out] it was given. *)
Theorem is_within_directory_accepts_sibling :
  let member_path := PosixPath.join "/srv/out/run" "../run-old/data.bin" in
  is_within_directory "/" "/srv/out/run" member_path = true
  ∧ PosixPath.abspath "/" member_path = "/srv/out/run-old/data.bin"
  ∧ PosixPath.inside "/srv/out/run" "/srv/out/run-old/data.bin" = false
  ∧ (∃ st',
      decompress 1 "/srv/in/run.tar" "/srv/out" false world_run
      = Some (Ok (RetPath "/srv/out/run"), st')
      ∧ files world_run !! "/srv/out/run-old/data.bin" = None
      ∧ files st' !! "/srv/out/run-old/data.bin" = Some some_bytes)
  ∧ (∃ st',
      decompress 1 "/data/.tar" "/tmp/out" false world_dotfile
      = Some (Ok (RetPath "/tmp/out/"), st')
      ∧ files world_dotfile !! "/tmp/outer/evil.txt" = None
      ∧ files st' !! "/tmp/outer/evil.txt" = Some some_bytes
      ∧ PosixPath.inside "/tmp/out" "/tmp/outer/evil.txt" = false).
Proof.
  repeat split; try (vm_compute; reflexivity).
  - eexists. split; [vm_compute; reflexivity|].
    split; vm_compute; reflexivity.
  - eexists. split; [vm_compute; reflexivity|].
    repeat split; vm_compute; reflexivity.
Qed.

(** C4. An exception can leave [decompress]: on a gzip stream that is cut
    short, reading raises [EOFError], which [except OSError] does not
    catch. *)
Theorem decompress_lets_EOFError_out :
  PyStr.endswith_any "/tmp/x.gz" exts = true
  ∧ is_OSError EOFError = false
  ∧ decompress 1 "/tmp/x.gz" "/tmp" false world_truncated
    = Some (Raise EOFError, world_truncated).
Proof. repeat split; vm_compute; reflexivity. Qed.

End DecompressClaims.

(** * Further properties of file_extension *)

Section FileExtensionMore.

Lemma py_getitem_nth {A : Type} (l : list A) (i : Z) :
  - Z.of_nat (length l) ≤ i < Z.of_nat (length l) →
  ∃ x, nth_error l (Z.to_nat (if i <? 0 then Z.of_nat (length l) + i else i)) = Some x
       ∧ py_getitem l i = Ok x.
Proof.
  intros Hi. unfold py_getitem.
  set (j := if i <? 0 then Z.of_nat (length l) + i else i).
  assert (0 ≤ j < Z.of_nat (length l)) as Hj
    by (subst j; destruct (Z.ltb_spec i 0); lia).
  destruct (Z.leb_spec 0 j); [|lia].
  destruct (Z.ltb_spec j (Z.of_nat (length l))); [|lia]. cbn [andb].
  destruct (nth_error l (Z.to_nat j)) as [x|] eqn:Hnth; [eauto|].
  apply nth_error_None in Hnth. lia.
Qed.

Lemma py_getitem_Ok_In {A : Type} (l : list A) (i : Z) (x : A) :
  py_getitem l i = Ok x → In x l.
Proof.
  unfold py_getitem. destruct (_ && _); [|done].
  destruct (nth_error l _) as [y|] eqn:Hnth; [|done].
  intros [= <-]. by eapply nth_error_In.
Qed.

Lemma py_getitem_Raise {A : Type} (l : list A) (i : Z) (e : exn) :
  py_getitem l i = Raise e → e = IndexError.
Proof.
  unfold py_getitem. destruct (_ && _); [|by intros [= <-]].
  destruct (nth_error l _); [done|by intros [= <-]].
Qed.

(** X1. [file_extension] raises nothing but [IndexError], and raises it
    exactly when the (prefixed) name ends with an extension of the active
    set and either no entry of [EXTS] is a trailing match or [maxsplit] is
    below minus the number of candidates. *)
Theorem file_extension_raises_iff (file : string) (preffix : option string)
    (suffix : string) (extension : ext_arg) (maxsplit : Z) (e : exn) :
  file_extension file preffix suffix extension maxsplit = Raise e
  ↔ e = IndexError
    ∧ PyStr.endswith_any (prefixed preffix file) (active_exts extension) = true
    ∧ (candidates (prefixed preffix file) suffix = []
       ∨ maxsplit < - Z.of_nat (length (candidates (prefixed preffix file) suffix))).
Proof.
  unfold file_extension.
  generalize (candidates (prefixed preffix file) suffix). intros file_.
  destruct (PyStr.endswith_any _ (active_exts extension));
    [|split; [done|by intros (_ & ? & _)]].
  split.
  - intros Hr. split; [by eapply py_getitem_Raise|]. split; [done|].
    destruct file_ as [|c cs]; [by left|right].
    destruct (Z.lt_ge_cases maxsplit (- Z.of_nat (length (c :: cs)))) as [|Hge]; [done|].
    destruct (py_getitem_in_range (c :: cs)
                (select_index (length (c :: cs)) maxsplit)) as (x & Hx & _);
      [|congruence].
    assert (0 < length (c :: cs))%nat as Hlen by (simpl; lia).
    destruct (Z.lt_ge_cases 0 maxsplit) as [Hpos|Hnp].
    + pose proof (select_index_positive _ _ Hlen Hpos). lia.
    + rewrite select_index_nonpositive by lia. lia.
  - intros (-> & _ & Hcase). apply py_getitem_out_of_range.
    pose proof (select_index_upper (length file_) maxsplit) as Hup.
    destruct Hcase as [Hnil | Hlow].
    + rewrite Hnil in *. simpl in *. lia.
    + left. destruct file_ as [|c cs]; [simpl in *; lia|].
      rewrite select_index_nonpositive; [done|simpl; lia|simpl in Hlow; lia].
Qed.

(** X2. When the name ends with an extension of the active set and
    [maxsplit] is not below minus the number of candidates, the result is
    the candidate at this position: [maxsplit - 1] for a positive
    [maxsplit], capped at the last one; the first for 0; counted from the
    end for a negative [maxsplit]. *)
Theorem file_extension_selects (file : string) (preffix : option string)
    (suffix : string) (extension : ext_arg) (maxsplit : Z) :
  PyStr.endswith_any (prefixed preffix file) (active_exts extension) = true →
  candidates (prefixed preffix file) suffix ≠ [] →
  - Z.of_nat (length (candidates (prefixed preffix file) suffix)) ≤ maxsplit →
  ∃ r, nth_error (candidates (prefixed preffix file) suffix)
         (selected_position (length (candidates (prefixed preffix file) suffix)) maxsplit)
       = Some r
       ∧ file_extension file preffix suffix extension maxsplit = Ok r.
Proof.
  intros Hends Hne Hm. unfold file_extension. rewrite Hends.
  set (file_ := candidates (prefixed preffix file) suffix) in *.
  assert (0 < length file_)%nat as Hlen by (destruct file_; [done|simpl; lia]).
  destruct (py_getitem_nth file_ (select_index (length file_) maxsplit))
    as (r & Hnth & Hr).
  { destruct (Z.lt_ge_cases 0 maxsplit) as [Hpos|Hnp].
    - pose proof (select_index_positive _ _ Hlen Hpos). lia.
    - rewrite select_index_nonpositive by lia. lia. }
  exists r. split; [|done]. rewrite <- Hnth. f_equal.
  unfold selected_position, select_index.
  destruct (Z.ltb_spec 0 maxsplit).
  - destruct (Z.ltb_spec (Z.min (Z.of_nat (length file_) - 1) (maxsplit - 1)) 0); lia.
  - destruct (Z.ltb_spec (Z.min (Z.of_nat (length file_) - 1) maxsplit) 0);
      destruct (Z.ltb_spec maxsplit 0); lia.
Qed.

Lemma file_extension_selects_witness :
  file_extension "data.tar.gz" None "" ExtNone 7 = Ok "data".
Proof.
  destruct (file_extension_selects "data.tar.gz" None "" ExtNone 7)
    as (r & Hnth & Hr); [reflexivity | discriminate | vm_compute; discriminate |].
  vm_compute in Hnth. injection Hnth as <-. exact Hr.
Defined.

End FileExtensionMore.

Section SuffixKept.

Lemma append_assoc_str (s t u : string) : (s +:+ t) +:+ u = s +:+ (t +:+ u).
Proof.
  induction s as [|c s IH]; [reflexivity|].
  rewrite !append_cons. by f_equal.
Qed.

Lemma prefix_spec (a b : string) :
  String.prefix a b = true ↔ ∃ t, b = a +:+ t.
Proof.
  revert b. induction a as [|x a IH]; intros b.
  - split; [intros _; by exists b|]. by destruct b.
  - destruct b as [|y b]; simpl.
    + split; [done|]. by intros [t Ht].
    + destruct (ascii_dec x y) as [->|Hne].
      * rewrite IH. split; intros [t Ht]; exists t.
        -- by rewrite append_cons, Ht.
        -- rewrite append_cons in Ht. by injection Ht.
      * split; [done|]. intros [t Ht]. rewrite append_cons in Ht. congruence.
Qed.

Lemma drop_append_le (n : nat) (s t : string) :
  (n ≤ String.length s)%nat → PyStr.drop n (s +:+ t) = PyStr.drop n s +:+ t.
Proof.
  revert s. induction n as [|n IH]; intros s Hn; [reflexivity|].
  destruct s as [|c s]; simpl in Hn; [lia|].
  rewrite append_cons. cbn [PyStr.drop]. apply IH. lia.
Qed.

(** An occurrence of an unbordered [old] that starts inside [w] does not
    reach into the copy of [old] that follows [w]. *)
Lemma unbordered_no_overlap (old w : string) :
  unbordered old = true → w ≠ "" →
  String.prefix old (w +:+ old) = true →
  (String.length old ≤ String.length w)%nat.
Proof.
  intros Hub Hw [t Ht]%prefix_spec.
  destruct (Nat.le_gt_cases (String.length old) (String.length w)) as [|Hlt]; [done|].
  exfalso.
  assert (0 < String.length w)%nat as Hpos by (destruct w; [done|simpl; lia]).
  unfold unbordered in Hub. rewrite forallb_forall in Hub.
  specialize (Hub (String.length w)).
  rewrite negb_true_iff in Hub.
  assert (String.prefix (PyStr.drop (String.length w) old) old = true) as Hp.
  { apply prefix_spec. exists t.
    rewrite <- drop_append_le by lia. rewrite <- Ht. by rewrite drop_append. }
  rewrite Hub in Hp; [done|]. apply in_seq. lia.
Qed.

Lemma replace_go_keeps_new (new : string) (c0 : ascii) (old0 u : string) (k : nat) :
  unbordered (String c0 old0) = true →
  (k ≤ String.length u)%nat →
  ∃ r, PyStr.replace_go (String c0 old0) new k (u +:+ String c0 old0) = r +:+ new.
Proof.
  intros Hub. revert k. induction u as [|c u IH]; intros k Hk.
  - simpl in Hk. assert (k = 0%nat) as -> by lia.
    change ("" +:+ String c0 old0) with (String c0 old0).
    cbn [PyStr.replace_go]. rewrite prefix_refl.
    rewrite replace_go_skip_all by (simpl; lia).
    exists "". by rewrite append_nil_r.
  - rewrite append_cons. destruct k as [|k]; cbn [PyStr.replace_go].
    + destruct (String.prefix _ _) eqn:Hp.
      * rewrite <- append_cons in Hp.
        apply unbordered_no_overlap in Hp; [|done..].
        destruct (IH (String.length (String c0 old0) - 1)%nat) as [r Hr];
          [simpl in *; lia|].
        exists (new +:+ r). by rewrite Hr, append_assoc_str.
      * destruct (IH 0%nat) as [r Hr]; [lia|].
        exists (String c r). by rewrite Hr.
    + simpl in Hk. apply IH. lia.
Qed.

Lemma EXTS_unbordered (e : string) : In e EXTS → unbordered e = true.
Proof.
  intros He.
  assert (forallb unbordered EXTS = true) as Hall by (vm_compute; reflexivity).
  rewrite forallb_forall in Hall. by apply Hall.
Qed.

(** X3. Whatever the arguments, a name that [file_extension] returns ends
    with the suffix: the entries of [EXTS] cannot overlap themselves, so
    the scan of [str.replace] always reaches the trailing extension. *)
Theorem file_extension_ends_with_suffix (file : string) (preffix : option string)
    (suffix : string) (extension : ext_arg) (maxsplit : Z) (r : string) :
  file_extension file preffix suffix extension maxsplit = Ok r →
  ∃ p, r = p +:+ suffix.
Proof.
  unfold file_extension. destruct (PyStr.endswith_any _ _).
  - intros Hin%py_getitem_Ok_In.
    apply candidates_shape in Hin as (e & pre & He & Hfile & ->).
    rewrite Hfile. pose proof (EXTS_unbordered e He) as Hub.
    destruct e as [|c0 e0]; [by apply EXTS_nonempty in He|].
    unfold PyStr.replace. apply replace_go_keeps_new; [done|lia].
  - intros [= <-]. eauto.
Qed.

Lemma file_extension_ends_with_suffix_witness :
  ∃ p, "run.tif.2020.tif" = p +:+ ".tif".
Proof.
  apply (file_extension_ends_with_suffix "run.grib2.2020.grib2" None ".tif"
           ExtNone default_maxsplit "run.tif.2020.tif").
  reflexivity.
Defined.

End SuffixKept.

(** * Further properties of decompress *)

Section DecompressErrors.

Lemma after_last_slash_le (s : string) :
  (PyStr.after_last_slash s ≤ String.length s)%nat.
Proof.
  induction s as [|c s IH]; [done|]. simpl.
  destruct (PyStr.after_last_slash s); [destruct (Ascii.eqb c "/")|]; lia.
Qed.

Lemma after_last_slash_append (p e : string) :
  PyStr.after_last_slash e = 0%nat →
  PyStr.after_last_slash (p +:+ e) = PyStr.after_last_slash p.
Proof.
  intros He. induction p as [|c p IH]; [done|].
  rewrite append_cons. simpl. by rewrite IH.
Qed.

(** A trailing extension without a slash is a trailing part of the base
    name too. *)
Lemma basename_endswith (src e : string) :
  PyStr.after_last_slash e = 0%nat →
  PyStr.endswith src e = true → PyStr.endswith (PosixPath.basename src) e = true.
Proof.
  intros He [p ->]%endswith_spec. apply endswith_spec.
  unfold PosixPath.basename. rewrite after_last_slash_append by done.
  exists (PyStr.drop (PyStr.after_last_slash p) p).
  apply drop_append_le, after_last_slash_le.
Qed.

(** X16. The calls of [file_extension] that [decompress] makes never
    raise: for every source path that passes the extension check, and for
    [maxsplit=1] as for the default [-1], [file_extension] applied to the
    base name with an empty suffix returns a name. *)
Lemma decompress_fname (src : string) (maxsplit : Z) :
  PyStr.endswith_any src exts = true → -1 ≤ maxsplit →
  ∃ fname, file_extension (PosixPath.basename src) None "" ExtNone maxsplit = Ok fname.
Proof.
  intros (e & He & Hends)%existsb_exists Hm.
  assert (PyStr.endswith_any (PosixPath.basename src) EXTS = true) as Hbase.
  { apply existsb_exists. exists e. split.
    - vm_compute in He. vm_compute. intuition.
    - apply basename_endswith; [|done].
      vm_compute in He. intuition (subst; reflexivity). }
  apply file_extension_default_returns.
  pose proof (candidates_nonempty _ "" Hbase) as Hne. cbn [prefixed].
  destruct (candidates (PosixPath.basename src) ""); [done|simpl; lia].
Qed.

Lemma decompress_fname_witness :
  ∃ fname,
    file_extension (PosixPath.basename "/data/in/archive.tar.gz") None "" ExtNone 1
    = Ok fname.
Proof.
  apply (decompress_fname "/data/in/archive.tar.gz" 1); [reflexivity | lia].
Defined.

Lemma exts_spec (src : string) :
  (∃ e p, In e exts ∧ src = p +:+ e) → PyStr.endswith_any src exts = true.
Proof. intros (e & p & He & ->). apply endswith_any_spec. eauto. Qed.

End DecompressErrors.

Section Extraction.

Lemma tar_extractall_run (tar : list tar_member) (path : string) (s : state) :
  tar_extractall tar path s
  = Some (Ok tt, mkState (extracted (cwd s) path tar (files s)) (cwd s) (log s)).
Proof.
  unfold tar_extractall, extracted, written. destruct s as [fs wd lg].
  cbn [files cwd log].
  revert fs. induction tar as [|m tar IH]; intros fs; [reflexivity|].
  cbn [for_each fold_left]. unfold bind at 1.
  destruct (member_isfile m).
  - unfold write_file. cbn [files cwd log]. apply IH.
  - unfold ret. apply IH.
Qed.

End Extraction.

Section RoundTrips.

(** The gzip step on a source that the gzip module refuses. *)
Lemma gzip_step_refused (src dst : string) (st : state) (b : blob) :
  files st !! PosixPath.abspath (cwd st) src = Some b →
  gunzip b = Raise BadGzipFile →
  try_except
    (let* content := gzip_read src in
     let* fname := lift (file_extension (PosixPath.basename src) None "" ExtNone 1) in
     write_file (PosixPath.join dst fname) content >>
     ret (PosixPath.join dst fname))
    is_OSError
    (fun ex => logger (Debug_not_gzip src) >> logger (Debug_exn ex) >> ret src) st
  = Some (Ok src, mkState (files st) (cwd st)
                          (log st ++ [Debug_not_gzip src; Debug_exn BadGzipFile])).
Proof.
  intros Hfile Hgz.
  apply try_except_caught with (e := BadGzipFile) (s' := st).
  - apply bind_Raise. by rewrite gzip_read_run, Hfile, Hgz.
  - reflexivity.
  - unfold bind, logger, ret. cbn. by rewrite <- app_assoc.
Qed.

(** The zip-or-tar step of [decompress] on a file that tarfile opens: the
    members are checked and extracted, the nested calls (if any) run, and
    the extraction directory is returned. *)
Lemma tar_step (fuel : nat) (src dst filename fname : string) (recursive : bool)
    (st st' : state) (b : blob) (members : list tar_member) :
  files st !! PosixPath.abspath (cwd st) src = Some b →
  (∀ entries, b ≠ Zip entries) → as_tar b = Some members →
  file_extension filename None "" ExtNone default_maxsplit = Ok fname →
  (∀ m, In m members →
        is_within_directory (cwd st) (PosixPath.join dst fname)
          (PosixPath.join (PosixPath.join dst fname) (member_name m)) = true) →
  (if recursive then
     for_each members (fun member =>
       if member_isfile member
       then decompress fuel (PosixPath.join (PosixPath.join dst fname) (member_name member))
                       (PosixPath.join dst fname) recursive >> ret tt
       else ret tt)
   else ret tt)
    (mkState (extracted (cwd st) (PosixPath.join dst fname) members (files st))
             (cwd st) (log st))
  = Some (Ok tt, st') →
  try_except
    (let* z := is_zipfile src in
     if z then
       let* zip := ZipFile src in
       let* fname := lift (file_extension filename None "" ExtNone default_maxsplit) in
       let dst_ := PosixPath.join dst fname in
       zip_extractall zip dst_ >>
       ret (Some (RetPath dst_))
     else
       let* t := is_tarfile src in
       if t then
         let* tar := tarfile_open src in
         let* fname := lift (file_extension filename None "" ExtNone default_maxsplit) in
         let dst_ := PosixPath.join dst fname in
         safe_extract tar dst_ >>
         (if recursive then
            for_each tar (fun member =>
              if member_isfile member
              then decompress fuel (PosixPath.join dst_ (member_name member))
                              dst_ recursive >> ret tt
              else ret tt)
          else ret tt) >>
         ret (Some (RetPath dst_))
       else ret None)
    is_Exception
    (fun ex => logger (Warning_exn ex) >> ret (Some RetFalse)) st
  = Some (Ok (Some (RetPath (PosixPath.join dst fname))), st').
Proof.
  intros Hfile Hzip Htar Hfname Hpass Hrec.
  set (dst_ := PosixPath.join dst fname) in *.
  apply try_except_Ok.
  apply bind_Ok with (a := false) (s' := st).
  { rewrite is_zipfile_run, Hfile.
    destruct b; first [done | by destruct (Hzip entries)]. }
  cbv beta iota.
  apply bind_Ok with (a := true) (s' := st);
    [by rewrite is_tarfile_run, Hfile, Htar|].
  cbv beta iota.
  apply bind_Ok with (a := members) (s' := st);
    [by rewrite tarfile_open_run, Hfile, Htar|].
  apply bind_Ok with (a := fname) (s' := st); [unfold lift; by rewrite Hfname|].
  cbv zeta. fold dst_.
  apply bind_Ok with (a := tt)
    (s' := mkState (extracted (cwd st) dst_ members (files st)) (cwd st) (log st)).
  { unfold safe_extract.
    apply bind_Ok with (a := tt) (s' := st); [|by rewrite tar_extractall_run].
    rewrite check_members_run.
    replace (forallb _ members) with true; [done|].
    symmetry. apply forallb_forall. intros m Hm. by apply Hpass. }
  by apply bind_Ok with (a := tt) (s' := st').
Qed.

(** A nested call on a path without an allowed extension changes
    nothing, so a loop of such calls does not either. *)
Lemma for_each_nested_noop (fuel : nat) (dst_ : string) (recursive : bool)
    (members : list tar_member) (s : state) :
  (∀ m, In m members → member_isfile m = true →
        PyStr.endswith_any (PosixPath.join dst_ (member_name m)) exts = false) →
  for_each members (fun member =>
    if member_isfile member
    then decompress (S fuel) (PosixPath.join dst_ (member_name member)) dst_ recursive
         >> ret tt
    else ret tt) s
  = Some (Ok tt, s).
Proof.
  induction members as [|m members IH]; intros Hno; [reflexivity|].
  cbn [for_each]. apply bind_Ok with (a := tt) (s' := s).
  - destruct (member_isfile m) eqn:Hfile; [|reflexivity].
    apply bind_Ok with (a := RetFalse) (s' := s); [|reflexivity].
    pose proof (Hno m (or_introl eq_refl) Hfile) as Hm.
    cbn [decompress]. by rewrite Hm.
  - apply IH. intros m' Hin. apply Hno. by right.
Qed.

(** X15. Recursion only concerns members with an allowed extension: for a
    tar archive whose regular members, once extracted, all have names
    without [.gz], [.tar], [.zip] or [.tar.gz], the recursive call does
    what the plain one does. *)
Theorem decompress_recursive_plain_members (fuel : nat) (src dst fname : string)
    (st : state) (members : list tar_member) :
  (∃ e p, In e exts ∧ src = p +:+ e) →
  files st !! PosixPath.abspath (cwd st) src = Some (Tar members) →
  file_extension (PosixPath.basename src) None "" ExtNone default_maxsplit
  = Ok fname →
  (∀ m, In m members →
        is_within_directory (cwd st) (PosixPath.join dst fname)
          (PosixPath.join (PosixPath.join dst fname) (member_name m)) = true) →
  (∀ m e p, In m members → member_isfile m = true → In e exts →
            PosixPath.join (PosixPath.join dst fname) (member_name m) ≠ p +:+ e) →
  decompress (S (S fuel)) src dst true st = decompress (S fuel) src dst false st.
Proof.
  intros Hends%exts_spec Hfile Hfname Hpass Hplain.
  set (dst_ := PosixPath.join dst fname).
  set (st1 := mkState (files st) (cwd st)
                      (log st ++ [Debug_not_gzip src; Debug_exn BadGzipFile])).
  set (st2 := mkState (extracted (cwd st) dst_ members (files st)) (cwd st) (log st1)).
  assert (∀ (fuel' : nat) (recursive : bool),
            (if recursive then
               for_each members (fun member =>
                 if member_isfile member
                 then decompress fuel' (PosixPath.join dst_ (member_name member))
                                 dst_ recursive >> ret tt
                 else ret tt)
             else ret tt) st2 = Some (Ok tt, st2) →
            decompress (S fuel') src dst recursive st
            = Some (Ok (RetPath dst_), st2)) as Hrun.
  { intros fuel' recursive Hrec.
    cbn [decompress]. rewrite Hends. cbn [negb].
    apply bind_Ok with (a := src) (s' := st1); [by eapply gzip_step_refused|].
    apply bind_Ok with (a := Some (RetPath dst_)) (s' := st2); [|reflexivity].
    by apply (tar_step fuel' src dst (PosixPath.basename src) fname recursive st1 _
                (Tar members) members). }
  rewrite (Hrun (S fuel) true), (Hrun fuel false); [done|done|].
  apply for_each_nested_noop. intros m Hin Hm.
  apply endswith_any_false. intros e p He. by apply Hplain.
Qed.

Lemma decompress_recursive_plain_members_witness :
  decompress 2 "/tmp/run.tar" "/tmp" true world_tar
  = decompress 1 "/tmp/run.tar" "/tmp" false world_tar.
Proof.
  apply (decompress_recursive_plain_members 0 "/tmp/run.tar" "/tmp" "run" world_tar
           [TarInfo "sub" false (Plain []);
            TarInfo "sub/a.bin" true some_bytes;
            TarInfo "b.txt" true (Plain [])]).
  - exists ".tar", "/tmp/run". split; [simpl; tauto | reflexivity].
  - vm_compute. reflexivity.
  - reflexivity.
  - intros m Hm. simpl in Hm.
    destruct Hm as [<-|[<-|[<-|[]]]]; vm_compute; reflexivity.
  - intros m e p Hm Hfile He. apply (endswith_any_false _ exts); [|done].
    simpl in Hm. destruct Hm as [<-|[<-|[<-|[]]]]; first [done | reflexivity].
Defined.

End RoundTrips.

(** * decompress against the interface *)

Section IfaceRuns.
Context (lib : Iface.library).

Lemma icall {A : Type}
    (f : Iface.world lib → Iface.outcome (Iface.error lib) A * Iface.world lib)
    (w w' : Iface.world lib) (lg : list (Iface.log_entry (Iface.error lib)))
    (o : Iface.outcome (Iface.error lib) A) :
  f w = (o, w') → Iface.call lib f (w, lg) = Some (o, (w', lg)).
Proof. intros Hf. unfold Iface.call. cbn. by rewrite Hf. Qed.

Lemma ibind_Returns {A B : Type} (m : Iface.M lib A) (f : A → Iface.M lib B)
    (s s' : Iface.state lib) (a : A)
    (r : option (Iface.outcome (Iface.error lib) B * Iface.state lib)) :
  m s = Some (Iface.Returns a, s') → f a s' = r → Iface.bind lib m f s = r.
Proof. intros Hm <-. unfold Iface.bind. by rewrite Hm. Qed.

Lemma ibind_Raises {A B : Type} (m : Iface.M lib A) (f : A → Iface.M lib B)
    (s s' : Iface.state lib) (e : Iface.raised (Iface.error lib)) :
  m s = Some (Iface.Raises e, s') → Iface.bind lib m f s = Some (Iface.Raises e, s').
Proof. intros Hm. unfold Iface.bind. by rewrite Hm. Qed.

Lemma ibind_Raises_inv {A B : Type} (m : Iface.M lib A) (f : A → Iface.M lib B)
    (s s' : Iface.state lib) (e : Iface.raised (Iface.error lib)) :
  Iface.bind lib m f s = Some (Iface.Raises e, s') →
  m s = Some (Iface.Raises e, s')
  ∨ ∃ a s1, m s = Some (Iface.Returns a, s1) ∧ f a s1 = Some (Iface.Raises e, s').
Proof.
  unfold Iface.bind. destruct (m s) as [[[a|e1] s1]|]; [eauto| |done].
  intros [= -> ->]. by left.
Qed.

Lemma itry_Returns {A : Type} (body : Iface.M lib A)
    (catches : Iface.raised (Iface.error lib) → bool)
    (handler : Iface.raised (Iface.error lib) → Iface.M lib A)
    (s s' : Iface.state lib) (a : A) :
  body s = Some (Iface.Returns a, s') →
  Iface.try_except lib body catches handler s = Some (Iface.Returns a, s').
Proof. intros Hb. unfold Iface.try_except. by rewrite Hb. Qed.

Lemma itry_caught {A : Type} (body : Iface.M lib A)
    (catches : Iface.raised (Iface.error lib) → bool)
    (handler : Iface.raised (Iface.error lib) → Iface.M lib A)
    (s s' : Iface.state lib) (e : Iface.raised (Iface.error lib))
    (r : option (Iface.outcome (Iface.error lib) A * Iface.state lib)) :
  body s = Some (Iface.Raises e, s') → catches e = true → handler e s' = r →
  Iface.try_except lib body catches handler s = r.
Proof. intros Hb Hc <-. unfold Iface.try_except. by rewrite Hb, Hc. Qed.

Lemma itry_Raises_inv {A : Type} (body : Iface.M lib A)
    (catches : Iface.raised (Iface.error lib) → bool)
    (handler : Iface.raised (Iface.error lib) → Iface.M lib A)
    (s s' : Iface.state lib) (e : Iface.raised (Iface.error lib)) :
  Iface.try_except lib body catches handler s = Some (Iface.Raises e, s') →
  (body s = Some (Iface.Raises e, s') ∧ catches e = false)
  ∨ ∃ e0 s0, body s = Some (Iface.Raises e0, s0) ∧ catches e0 = true
             ∧ handler e0 s0 = Some (Iface.Raises e, s').
Proof.
  unfold Iface.try_except. destruct (body s) as [[[a|e1] s1]|]; [done| |done].
  destruct (catches e1) eqn:Hc; [eauto 6|].
  intros [= -> ->]. by left.
Qed.

Lemma not_gzip_run (src : string) (ex : Iface.raised (Iface.error lib))
    (w : Iface.world lib) (lg : list (Iface.log_entry (Iface.error lib))) :
  Iface.not_gzip lib src ex (w, lg)
  = Some (Iface.Returns src,
          (w, lg ++ [Iface.Debug_not_gzip src; Iface.Debug_exn ex])).
Proof.
  unfold Iface.not_gzip, Iface.bind, Iface.logger, Iface.ret. cbn.
  by rewrite <- app_assoc.
Qed.

(** The first [try] block when the read is refused. *)
Lemma gzip_step_read_refused (src dst filename : string)
    (w w1 : Iface.world lib) (lg : list (Iface.log_entry (Iface.error lib)))
    (ex : Iface.raised (Iface.error lib)) :
  Iface.gzip_read lib src w = (Iface.Raises ex, w1) →
  Iface.is_OSError lib ex = true →
  Iface.gzip_step lib src dst filename (w, lg)
  = Some (Iface.Returns src,
          (w1, lg ++ [Iface.Debug_not_gzip src; Iface.Debug_exn ex])).
Proof.
  intros Hread Hos. unfold Iface.gzip_step.
  eapply ibind_Returns with (a := None); [|reflexivity].
  eapply itry_caught; [|exact Hos|].
  - apply ibind_Raises. by apply icall.
  - eapply ibind_Returns; [apply not_gzip_run|reflexivity].
Qed.

(** The first [try] block when the read succeeds: the write decides. *)
Lemma gzip_step_read (src dst filename fname : string)
    (w w1 : Iface.world lib) (lg : list (Iface.log_entry (Iface.error lib)))
    (content : Iface.content lib) :
  Iface.gzip_read lib src w = (Iface.Returns content, w1) →
  file_extension filename None "" ExtNone 1 = Ok fname →
  Iface.gzip_step lib src dst filename (w, lg)
  = Iface.try_except lib
      (Iface.bind lib (Iface.call lib (Iface.open_write lib (PosixPath.join dst fname) content))
                  (fun _ => Iface.ret lib (PosixPath.join dst fname)))
      (Iface.is_OSError lib)
      (Iface.not_gzip lib (PosixPath.join dst fname)) (w1, lg).
Proof.
  intros Hread Hfname. unfold Iface.gzip_step.
  eapply ibind_Returns with (a := Some (content, PosixPath.join dst fname));
    [|reflexivity].
  apply itry_Returns. eapply ibind_Returns; [by apply icall|].
  eapply ibind_Returns; [|reflexivity].
  unfold Iface.lift. by rewrite Hfname.
Qed.

(** Whatever leaves the first [try] block is not an [OSError]. *)
Lemma gzip_step_Raises (src dst filename : string) (s s' : Iface.state lib)
    (ex : Iface.raised (Iface.error lib)) :
  Iface.gzip_step lib src dst filename s = Some (Iface.Raises ex, s') →
  Iface.is_OSError lib ex = false.
Proof.
  unfold Iface.gzip_step.
  intros [H | ([[content src1]|] & s1 & _ & H)]%ibind_Raises_inv.
  - apply itry_Raises_inv in H as [[_ Hc] | (e0 & [w0 lg0] & _ & _ & Hh)]; [done|].
    apply ibind_Raises_inv in Hh as [Hh | (a & s2 & _ & Hh)]; [|done].
    by rewrite not_gzip_run in Hh.
  - apply itry_Raises_inv in H as [[_ Hc] | (e0 & [w0 lg0] & _ & _ & Hh)]; [done|].
    by rewrite not_gzip_run in Hh.
  - done.
Qed.

End IfaceRuns.

Section IfaceDecompress.

Lemma allowed_name (src : string) :
  (∃ e p, In e [".gz"; ".tar"; ".zip"] ∧ src = p +:+ e) →
  PyStr.endswith_any src exts = true.
Proof.
  intros (e & p & Hin & ->). apply endswith_any_spec. exists e.
  split; [|eauto]. simpl in *. tauto.
Qed.

(** C10, as amended. A source named [*.gz], [*.tar] or [*.zip] that none
    of the three libraries takes for its format (reading it through gzip
    raises an [OSError], [zipfile.is_zipfile] and [tarfile.is_tarfile]
    answer [False], and these probes leave the world as it is) comes back as
    it is: the result is the path [src], not [False]; the world is
    unchanged, so no file is created; two debug lines are logged. This
    holds for every library. *)
Theorem decompress_unrecognised_content (lib : Iface.library) (fuel : nat)
    (src dst : string) (recursive : bool) (w : Iface.world lib)
    (lg : list (Iface.log_entry (Iface.error lib)))
    (ex : Iface.raised (Iface.error lib)) :
  (∃ e p, In e [".gz"; ".tar"; ".zip"] ∧ src = p +:+ e) →
  Iface.gzip_read lib src w = (Iface.Raises ex, w) →
  Iface.is_OSError lib ex = true →
  Iface.is_zipfile lib src w = (Iface.Returns false, w) →
  Iface.is_tarfile lib src w = (Iface.Returns false, w) →
  Iface.decompress lib (S fuel) src dst recursive (w, lg)
  = Some (Iface.Returns (RetPath src),
          (w, lg ++ [Iface.Debug_not_gzip src; Iface.Debug_exn ex])).
Proof.
  intros Hends%allowed_name Hread Hos Hzip Htar.
  cbn [Iface.decompress]. rewrite Hends. cbn [negb].
  eapply ibind_Returns; [by apply gzip_step_read_refused|].
  eapply ibind_Returns with (a := None); [|reflexivity].
  apply itry_Returns.
  eapply ibind_Returns; [by apply icall|]. cbv beta iota.
  eapply ibind_Returns; [by apply icall|]. reflexivity.
Qed.

Lemma decompress_unrecognised_content_witness :
  Iface.decompress flat_library 1 "/tmp/notes.gz" "/tmp" false (world_misnamed, [])
  = Some (Iface.Returns (RetPath "/tmp/notes.gz"),
          (world_misnamed,
           [] ++ [Iface.Debug_not_gzip "/tmp/notes.gz";
                  Iface.Debug_exn (Iface.Own BadGzipFile)])).
Proof.
  apply (decompress_unrecognised_content flat_library 0 "/tmp/notes.gz" "/tmp" false
           world_misnamed [] (Iface.Own BadGzipFile)).
  - exists ".gz", "/tmp/notes". split; [simpl; tauto | reflexivity].
  - vm_compute. reflexivity.
  - reflexivity.
  - vm_compute. reflexivity.
  - vm_compute. reflexivity.
Defined.

(** X5. A source with an allowed name that cannot be read (missing, a
    directory, ...): when the gzip read raises an [OSError],
    [zipfile.is_zipfile] answers [False] and [tarfile.is_tarfile] raises,
    [decompress] returns [False]; the first exception is logged at debug
    level after a "Not gzip" line, the second as a warning, and no other
    library call is made. *)
Theorem decompress_unreadable_source (lib : Iface.library) (fuel : nat)
    (src dst : string) (recursive : bool) (w w1 w2 w3 : Iface.world lib)
    (lg : list (Iface.log_entry (Iface.error lib)))
    (ex1 ex2 : Iface.raised (Iface.error lib)) :
  (∃ e p, In e exts ∧ src = p +:+ e) →
  Iface.gzip_read lib src w = (Iface.Raises ex1, w1) →
  Iface.is_OSError lib ex1 = true →
  Iface.is_zipfile lib src w1 = (Iface.Returns false, w2) →
  Iface.is_tarfile lib src w2 = (Iface.Raises ex2, w3) →
  Iface.decompress lib (S fuel) src dst recursive (w, lg)
  = Some (Iface.Returns RetFalse,
          (w3, lg ++ [Iface.Debug_not_gzip src; Iface.Debug_exn ex1;
                      Iface.Warning_exn ex2])).
Proof.
  intros Hends%exts_spec Hread Hos Hzip Htar.
  cbn [Iface.decompress]. rewrite Hends. cbn [negb].
  eapply ibind_Returns; [by apply gzip_step_read_refused|].
  eapply ibind_Returns with (a := Some RetFalse); [|reflexivity].
  eapply itry_caught; [|reflexivity|].
  - eapply ibind_Returns; [by apply icall|]. cbv beta iota.
    apply ibind_Raises. by apply icall.
  - unfold Iface.bind, Iface.logger, Iface.ret. cbn. by rewrite <- app_assoc.
Qed.

Lemma decompress_unreadable_source_witness :
  Iface.decompress flat_library 1 "/tmp/absent.zip" "/tmp" true (world_misnamed, [])
  = Some (Iface.Returns RetFalse,
          (world_misnamed,
           [] ++ [Iface.Debug_not_gzip "/tmp/absent.zip";
                  Iface.Debug_exn (Iface.Own FileNotFoundError);
                  Iface.Warning_exn (Iface.Own FileNotFoundError)])).
Proof.
  apply (decompress_unreadable_source flat_library 0 "/tmp/absent.zip" "/tmp" true
           world_misnamed world_misnamed world_misnamed world_misnamed []).
  - exists ".zip", "/tmp/absent". split; [simpl; tauto | reflexivity].
  - vm_compute. reflexivity.
  - reflexivity.
  - vm_compute. reflexivity.
  - vm_compute. reflexivity.
Defined.

(** X6. Whatever the libraries do, an exception that leaves [decompress]
    (recursive or not) left its first [try] block, the gzip step, and is
    not an [OSError]: no [OSError] ever reaches the caller, and nothing
    raised by the zip and tar steps or by a nested call does. *)
Theorem decompress_raises_from_gzip_step (lib : Iface.library) (fuel : nat)
    (src dst : string) (recursive : bool) (s s' : Iface.state lib)
    (ex : Iface.raised (Iface.error lib)) :
  Iface.decompress lib fuel src dst recursive s = Some (Iface.Raises ex, s') →
  Iface.gzip_step lib src dst (PosixPath.basename src) s = Some (Iface.Raises ex, s')
  ∧ Iface.is_OSError lib ex = false.
Proof.
  destruct fuel as [|fuel]; [done|]. cbn [Iface.decompress].
  destruct (negb _); [done|].
  intros [H | (src1 & s1 & _ & H)]%ibind_Raises_inv.
  - split; [done|]. by eapply gzip_step_Raises.
  - exfalso. apply ibind_Raises_inv in H as [H | (r & s2 & _ & H)].
    + apply itry_Raises_inv in H as [[_ Hc] | (e0 & s0 & _ & _ & Hh)]; [done|].
      unfold Iface.bind, Iface.logger, Iface.ret in Hh. done.
    + by destruct r.
Qed.

Lemma decompress_raises_from_gzip_step_witness :
  Iface.gzip_step flat_library "/tmp/x.gz" "/tmp" (PosixPath.basename "/tmp/x.gz")
    (world_truncated, [])
  = Some (Iface.Raises (Iface.Own EOFError), (world_truncated, []))
  ∧ Iface.is_OSError flat_library (Iface.Own EOFError) = false.
Proof.
  apply (decompress_raises_from_gzip_step flat_library 1 "/tmp/x.gz" "/tmp" true).
  vm_compute. reflexivity.
Defined.

(** X11. A gzip file whose decompressed data is neither a zip nor a tar
    archive: when the read succeeds, the data is written to [dst/<name with
    one extension level stripped>] and neither [is_zipfile] nor
    [is_tarfile] takes that file, [decompress] returns that path and logs
    nothing; the only calls made are the read, the write and the two
    probes. *)
Theorem decompress_gunzips (lib : Iface.library) (fuel : nat)
    (src dst fname : string) (recursive : bool) (w w1 w2 w3 w4 : Iface.world lib)
    (lg : list (Iface.log_entry (Iface.error lib))) (content : Iface.content lib) :
  (∃ e p, In e exts ∧ src = p +:+ e) →
  Iface.gzip_read lib src w = (Iface.Returns content, w1) →
  file_extension (PosixPath.basename src) None "" ExtNone 1 = Ok fname →
  Iface.open_write lib (PosixPath.join dst fname) content w1 = (Iface.Returns tt, w2) →
  Iface.is_zipfile lib (PosixPath.join dst fname) w2 = (Iface.Returns false, w3) →
  Iface.is_tarfile lib (PosixPath.join dst fname) w3 = (Iface.Returns false, w4) →
  Iface.decompress lib (S fuel) src dst recursive (w, lg)
  = Some (Iface.Returns (RetPath (PosixPath.join dst fname)), (w4, lg)).
Proof.
  intros Hends%exts_spec Hread Hfname Hwrite Hzip Htar.
  cbn [Iface.decompress]. rewrite Hends. cbn [negb].
  eapply ibind_Returns with (a := PosixPath.join dst fname) (s' := (w2, lg)).
  { erewrite gzip_step_read by done. apply itry_Returns.
    eapply ibind_Returns; [by apply icall|reflexivity]. }
  eapply ibind_Returns with (a := None); [|reflexivity].
  apply itry_Returns.
  eapply ibind_Returns; [by apply icall|]. cbv beta iota.
  eapply ibind_Returns; [by apply icall|]. reflexivity.
Qed.

Lemma decompress_gunzips_witness :
  Iface.decompress flat_library 1 "/tmp/obs.grib2.gz" "/tmp" false (world_gz, [])
  = Some (Iface.Returns (RetPath (PosixPath.join "/tmp" "obs.grib2")),
          (mkState (<["/tmp/obs.grib2" := some_bytes]> (files world_gz)) "/" [], [])).
Proof.
  apply (decompress_gunzips flat_library 0 "/tmp/obs.grib2.gz" "/tmp" "obs.grib2" false
           world_gz world_gz
           (mkState (<["/tmp/obs.grib2" := some_bytes]> (files world_gz)) "/" [])
           (mkState (<["/tmp/obs.grib2" := some_bytes]> (files world_gz)) "/" [])
           (mkState (<["/tmp/obs.grib2" := some_bytes]> (files world_gz)) "/" [])
           [] some_bytes).
  - exists ".gz", "/tmp/obs.grib2". split; [simpl; tauto | reflexivity].
  - vm_compute. reflexivity.
  - reflexivity.
  - vm_compute. reflexivity.
  - vm_compute. reflexivity.
  - vm_compute. reflexivity.
Defined.

(** X17. When the decompressed data cannot be written, the [OSError] of
    [open] is not reported as such: it is logged at debug level after a
    "Not gzip" line that names the output path, [src] stays bound to that
    path, and the zip and tar probes run on it. If [is_zipfile] answers
    [False] there and [is_tarfile] raises, [decompress] returns [False]. *)
Theorem decompress_write_refused (lib : Iface.library) (fuel : nat)
    (src dst fname : string) (recursive : bool) (w w1 w2 w3 w4 : Iface.world lib)
    (lg : list (Iface.log_entry (Iface.error lib))) (content : Iface.content lib)
    (ex1 ex2 : Iface.raised (Iface.error lib)) :
  (∃ e p, In e exts ∧ src = p +:+ e) →
  Iface.gzip_read lib src w = (Iface.Returns content, w1) →
  file_extension (PosixPath.basename src) None "" ExtNone 1 = Ok fname →
  Iface.open_write lib (PosixPath.join dst fname) content w1 = (Iface.Raises ex1, w2) →
  Iface.is_OSError lib ex1 = true →
  Iface.is_zipfile lib (PosixPath.join dst fname) w2 = (Iface.Returns false, w3) →
  Iface.is_tarfile lib (PosixPath.join dst fname) w3 = (Iface.Raises ex2, w4) →
  Iface.decompress lib (S fuel) src dst recursive (w, lg)
  = Some (Iface.Returns RetFalse,
          (w4, lg ++ [Iface.Debug_not_gzip (PosixPath.join dst fname);
                      Iface.Debug_exn ex1; Iface.Warning_exn ex2])).
Proof.
  intros Hends%exts_spec Hread Hfname Hwrite Hos Hzip Htar.
  cbn [Iface.decompress]. rewrite Hends. cbn [negb].
  eapply ibind_Returns with (a := PosixPath.join dst fname).
  { erewrite gzip_step_read by done.
    eapply itry_caught; [|exact Hos|apply not_gzip_run].
    apply ibind_Raises. by apply icall. }
  eapply ibind_Returns with (a := Some RetFalse); [|reflexivity].
  eapply itry_caught; [|reflexivity|].
  - eapply ibind_Returns; [by apply icall|]. cbv beta iota.
    apply ibind_Raises. by apply icall.
  - unfold Iface.bind, Iface.logger, Iface.ret. cbn. by rewrite <- app_assoc.
Qed.

Lemma decompress_write_refused_witness :
  Iface.decompress readonly_library 1 "/tmp/obs.grib2.gz" "/tmp" false (world_gz, [])
  = Some (Iface.Returns RetFalse,
          (world_gz,
           [] ++ [Iface.Debug_not_gzip (PosixPath.join "/tmp" "obs.grib2");
                  Iface.Debug_exn (Iface.Own FileNotFoundError);
                  Iface.Warning_exn (Iface.Own FileNotFoundError)])).
Proof.
  apply (decompress_write_refused readonly_library 0 "/tmp/obs.grib2.gz" "/tmp"
           "obs.grib2" false world_gz world_gz world_gz world_gz world_gz []
           some_bytes).
  - exists ".gz", "/tmp/obs.grib2". split; [simpl; tauto | reflexivity].
  - vm_compute. reflexivity.
  - reflexivity.
  - reflexivity.
  - reflexivity.
  - vm_compute. reflexivity.
  - vm_compute. reflexivity.
Defined.

Lemma iabspath (lib : Iface.library) (path wd : string) (w : Iface.world lib)
    (lg : list (Iface.log_entry (Iface.error lib))) :
  Iface.os_getcwd lib w = (Iface.Returns wd, w) →
  Iface.abspath lib path (w, lg)
  = Some (Iface.Returns (PosixPath.abspath wd path), (w, lg)).
Proof.
  intros Hcwd. unfold Iface.abspath, PosixPath.abspath.
  destruct (PosixPath.isabs path); [reflexivity|].
  eapply ibind_Returns; [by apply icall|reflexivity].
Qed.

Lemma iwithin (lib : Iface.library) (directory target wd : string)
    (w : Iface.world lib) (lg : list (Iface.log_entry (Iface.error lib))) :
  Iface.os_getcwd lib w = (Iface.Returns wd, w) →
  Iface.is_within_directory lib directory target (w, lg)
  = Some (Iface.Returns (is_within_directory wd directory target), (w, lg)).
Proof.
  intros Hcwd. unfold Iface.is_within_directory.
  eapply ibind_Returns; [by apply iabspath|].
  eapply ibind_Returns; [by apply iabspath|reflexivity].
Qed.

(** The loop of [safe_extract] stops with the exception at the first member
    that fails the check, and changes nothing. *)
Lemma icheck_loop (lib : Iface.library) (members : list Iface.member)
    (path wd : string) (w : Iface.world lib)
    (lg : list (Iface.log_entry (Iface.error lib))) :
  Iface.os_getcwd lib w = (Iface.Returns wd, w) →
  Iface.for_each lib members (fun member =>
    Iface.bind lib
      (Iface.is_within_directory lib path (PosixPath.join path (Iface.name member)))
      (fun within => if negb within then Iface.raise lib (Iface.Own PathTraversal)
                     else Iface.ret lib tt)) (w, lg)
  = Some (if forallb (fun m => is_within_directory wd path
                                 (PosixPath.join path (Iface.name m))) members
          then Iface.Returns tt else Iface.Raises (Iface.Own PathTraversal),
          (w, lg)).
Proof.
  intros Hcwd. induction members as [|m members IH]; [reflexivity|].
  cbn [Iface.for_each forallb].
  destruct (is_within_directory wd path (PosixPath.join path (Iface.name m))) eqn:Hm.
  - eapply ibind_Returns with (a := tt); [|exact IH].
    eapply ibind_Returns; [by apply iwithin|]. by rewrite Hm.
  - apply ibind_Raises.
    eapply ibind_Returns; [by apply iwithin|]. by rewrite Hm.
Qed.

(** X12. No partial extraction, whatever the libraries do: when the file
    that the gzip step leaves is taken for a tar archive and one of its
    members fails [is_within_directory], [decompress] returns [False] and
    logs the exception as a warning; [tar.extractall] is not called, and
    the world is the one the last probe left. *)
Theorem decompress_refuses_unsafe_member (lib : Iface.library) (fuel : nat)
    (src dst src1 fname wd : string) (recursive : bool) (s0 : Iface.state lib)
    (w w1 w2 w3 w4 : Iface.world lib)
    (lg : list (Iface.log_entry (Iface.error lib)))
    (tar : Iface.tar_handle lib) (members : list Iface.member) (m : Iface.member) :
  (∃ e p, In e exts ∧ src = p +:+ e) →
  Iface.gzip_step lib src dst (PosixPath.basename src) s0
  = Some (Iface.Returns src1, (w, lg)) →
  Iface.is_zipfile lib src1 w = (Iface.Returns false, w1) →
  Iface.is_tarfile lib src1 w1 = (Iface.Returns true, w2) →
  Iface.tarfile_open lib src1 w2 = (Iface.Returns tar, w3) →
  file_extension (PosixPath.basename src) None "" ExtNone default_maxsplit
  = Ok fname →
  Iface.getmembers lib tar w3 = (Iface.Returns members, w4) →
  Iface.os_getcwd lib w4 = (Iface.Returns wd, w4) →
  In m members →
  is_within_directory wd (PosixPath.join dst fname)
    (PosixPath.join (PosixPath.join dst fname) (Iface.name m)) = false →
  Iface.decompress lib (S fuel) src dst recursive s0
  = Some (Iface.Returns RetFalse,
          (w4, lg ++ [Iface.Warning_exn (Iface.Own PathTraversal)])).
Proof.
  intros Hends%exts_spec Hstep Hzip Htar Hopen Hfname Hmembers Hcwd Hin Hbad.
  cbn [Iface.decompress]. rewrite Hends. cbn [negb].
  eapply ibind_Returns; [exact Hstep|].
  eapply ibind_Returns with (a := Some RetFalse); [|reflexivity].
  eapply itry_caught with (e := Iface.Own PathTraversal) (s' := (w4, lg));
    [|reflexivity|reflexivity].
  eapply ibind_Returns; [by apply icall|]. cbv beta iota.
  eapply ibind_Returns; [by apply icall|]. cbv beta iota.
  eapply ibind_Returns; [by apply icall|].
  eapply ibind_Returns; [unfold Iface.lift; by rewrite Hfname|].
  cbv zeta. apply ibind_Raises. unfold Iface.safe_extract.
  eapply ibind_Returns; [by apply icall|].
  apply ibind_Raises. rewrite (icheck_loop lib members _ wd) by done.
  destruct (forallb _ members) eqn:Hall; [|done].
  rewrite forallb_forall in Hall. specialize (Hall m Hin). congruence.
Qed.

Lemma decompress_refuses_unsafe_member_witness :
  Iface.decompress flat_library 1 "/tmp/foo.tar" "/tmp" true (world_fixture, [])
  = Some (Iface.Returns RetFalse,
          (world_fixture,
           [Iface.Debug_not_gzip "/tmp/foo.tar"; Iface.Debug_exn (Iface.Own BadGzipFile)]
           ++ [Iface.Warning_exn (Iface.Own PathTraversal)])).
Proof.
  apply (decompress_refuses_unsafe_member flat_library 0 "/tmp/foo.tar" "/tmp"
           "/tmp/foo.tar" "foo" "/" true (world_fixture, [])
           world_fixture world_fixture world_fixture world_fixture world_fixture
           [Iface.Debug_not_gzip "/tmp/foo.tar"; Iface.Debug_exn (Iface.Own BadGzipFile)]
           [TarInfo "ok.txt" true some_bytes; TarInfo "../evil.txt" true some_bytes]
           [Iface.Member "ok.txt" true; Iface.Member "../evil.txt" true]
           (Iface.Member "../evil.txt" true)).
  - exists ".tar", "/tmp/foo". split; [simpl; tauto | reflexivity].
  - vm_compute. reflexivity.
  - vm_compute. reflexivity.
  - vm_compute. reflexivity.
  - vm_compute. reflexivity.
  - reflexivity.
  - reflexivity.
  - reflexivity.
  - simpl. tauto.
  - reflexivity.
Defined.

(** On the worlds of the first part, the run against the interface gives
    what the run on the model gives. *)
Example iface_zero_length_source :
  Iface.decompress flat_library 1 "/tmp/empty.gz" "/tmp" false (world_empty, [])
  = Some (Iface.Returns (RetPath "/tmp/empty"),
          (mkState (<["/tmp/empty" := Plain []]> (files world_empty)) "/" [], [])).
Proof. vm_compute. reflexivity. Qed.

Example iface_escaping_member :
  Iface.decompress flat_library 1 "/tmp/foo.tar" "/tmp" false (world_sibling, [])
  = Some (Iface.Returns (RetPath "/tmp/foo"),
          (mkState (<["/tmp/foobar/evil.txt" := some_bytes]> (files world_sibling))
                   "/" [],
           [Iface.Debug_not_gzip "/tmp/foo.tar";
            Iface.Debug_exn (Iface.Own BadGzipFile)])).
Proof. vm_compute. reflexivity. Qed.

Example iface_truncated_gzip :
  Iface.decompress flat_library 1 "/tmp/x.gz" "/tmp" false (world_truncated, [])
  = Some (Iface.Raises (Iface.Own EOFError), (world_truncated, [])).
Proof. vm_compute. reflexivity. Qed.

End IfaceDecompress.
